(** * The paid MCP gateway of [mcp-server/mcp_server_node.js]

    A shallow embedding of the Express handler [app.post('/')], which speaks
    JSON-RPC 2.0, gates the one tool [ask_rag] behind [requirePayment] and
    forwards paid calls to the RAG backend with [fetch].

    - [Js]: the JavaScript values a parsed JSON body is made of, with the
      coercions the handler relies on (property reads, destructuring,
      template-literal conversion, strict equality with a string literal).
    - [Eff]: a writer/error monad; the log records the observable calls
      ([requirePayment], [fetch], [res.json], [res.status(200).end()]) in
      program order, the error part is a thrown [Error].
    - [McpServer]: the handler itself and the properties of its traces. *)

From Stdlib Require Import String Ascii List ZArith QArith Bool Lia.
From Stdlib Require Import Decimal DecimalString.
Import ListNotations.

#[local] Open Scope list_scope.
#[local] Open Scope string_scope.
#[local] Set Warnings "-register-all".

(* ================================================================== *)
(** ** JavaScript values *)

Module Js.

(** A thrown [Error] object; only its [message] is ever read
    ([paymentError.message], [error.message]). *)
Record error : Type := Error { message : string }.

(** The outcome of evaluating an expression: a value, or a throw. *)
Inductive result (A : Type) : Type :=
| Ok (a : A)
| Thrown (e : error).
Arguments Ok {A} a.
Arguments Thrown {A} e.

(** *** Numbers

    The handler never computes with a number of the request: it converts
    it to text or passes it on.  A Number is therefore kept as the text
    JavaScript renders it with ([Number::toString]: "7", "1.5", "1e+21",
    "Infinity"); 0 and -0, which [===] identifies, share the text "0".
    Only texts of Numbers stand for values of the program; the handler
    treats any text alike.
    [number_to_string n] is that text for the Number value of the
    integer [n], as a literal or [JSON.parse] yields it: rounded to 53
    bits, ties to even, then the shortest decimal that reads back as the
    same Number, in exponent form from 10^21 on. *)

Definition decimal_digits (n : Z) : string := NilZero.string_of_int (Z.to_int n).

(** The Number value of a positive integer. *)
Definition round_to_double (a : Z) : Z :=
  let e := (Z.log2 a - 52)%Z in
  if (e <=? 0)%Z then a
  else
    let q := (a / 2 ^ e)%Z in
    let r := (a mod 2 ^ e)%Z in
    let half := (2 ^ (e - 1))%Z in
    let m := if (half <? r)%Z || ((r =? half)%Z && Z.odd q)
             then (q + 1)%Z else q in
    (m * 2 ^ e)%Z.

(** The multiple of a power of ten with the fewest digits that lies in
    the rounding interval of [v] (bounds doubled, to stay in the
    integers), the closest one when two do, the even one on a tie. *)
Fixpoint shortest (fuel : nat) (p v low2 high2 : Z) (inclusive : bool) : Z :=
  match fuel with
  | O => v
  | S fuel' =>
      let c1 := (v / p * p)%Z in
      let c2 := (c1 + p)%Z in
      let inside c :=
        if inclusive
        then (low2 <=? 2 * c)%Z && (2 * c <=? high2)%Z
        else (low2 <? 2 * c)%Z && (2 * c <? high2)%Z in
      match inside c1, inside c2 with
      | true, true =>
          if (v - c1 <? c2 - v)%Z then c1
          else if (c2 - v <? v - c1)%Z then c2
          else if Z.even (c1 / p) then c1 else c2
      | true, false => c1
      | false, true => c2
      | false, false => shortest fuel' (p / 10)%Z v low2 high2 inclusive
      end
  end.

Definition shortest_decimal (v : Z) : Z :=
  let e := (Z.log2 v - 52)%Z in
  if (e <=? 0)%Z then v
  else
    let m := (v / 2 ^ e)%Z in
    let above := (2 ^ e)%Z in
    let below := if (m =? 2 ^ 52)%Z then (2 ^ (e - 1))%Z else above in
    let nd := String.length (decimal_digits v) in
    shortest nd (10 ^ (Z.of_nat nd - 1))%Z v
      (2 * v - below)%Z (2 * v + above)%Z (Z.even m).

Fixpoint strip_zeros (s : string) : string :=
  match s with
  | EmptyString => EmptyString
  | String ch rest =>
      match strip_zeros rest with
      | EmptyString =>
          if Ascii.eqb ch "0" then EmptyString else String ch EmptyString
      | rest' => String ch rest'
      end
  end.

Definition exponent_form (c : Z) : string :=
  let all := decimal_digits c in
  let n := Z.of_nat (String.length all) in
  match strip_zeros all with
  | EmptyString => "0"
  | String d EmptyString => String d ("e+" ++ decimal_digits (n - 1))
  | String d more => String d ("." ++ more ++ "e+" ++ decimal_digits (n - 1))
  end.

Definition render_positive (a : Z) : string :=
  let v := round_to_double a in
  if (2 ^ 1024 <=? v)%Z then "Infinity"
  else
    let c := shortest_decimal v in
    if (String.length (decimal_digits c) <=? 21)%nat
    then decimal_digits c
    else exponent_form c.

Definition number_to_string (n : Z) : string :=
  if (n =? 0)%Z then "0"
  else if (n <? 0)%Z then "-" ++ render_positive (- n)
  else render_positive n.

(** Values as [JSON.parse] builds them, plus [undefined], which is what a
    read of an absent property yields.  An object is its own properties in
    insertion order, each key once. *)
Inductive value : Type :=
| JUndefined
| JNull
| JBool (b : bool)
| JNumber (text : string)
| JStr (s : string)
| JArr (elems : list value)
| JObj (fields : list (string * value)).

(** The Number an integer literal denotes. *)
Definition JNum (n : Z) : value := JNumber (number_to_string n).

(** Own-property lookup. *)
Fixpoint own (fields : list (string * value)) (k : string) : option value :=
  match fields with
  | [] => None
  | (k', v) :: rest => if String.eqb k' k then Some v else own rest k
  end.

Definition has_own (fields : list (string * value)) (k : string) : bool :=
  match own fields k with Some _ => true | None => false end.

Definition nullish (v : value) : bool :=
  match v with JUndefined | JNull => true | _ => false end.

(** [v.k] for a non-nullish [v] and a key [k] that no prototype defines
    (all keys the handler reads by name are such: method, params, id, name,
    arguments, question, mode, answer). *)
Definition get (v : value) (k : string) : value :=
  match v with
  | JObj fields => match own fields k with Some x => x | None => JUndefined end
  | _ => JUndefined
  end.

Definition type_name (v : value) : string :=
  match v with JNull => "null" | _ => "undefined" end.

(** [const { k, ... } = v] first requires [v] to be object-coercible; V8
    words the TypeError after the first pattern key and the source text. *)
Definition destructurable (v : value) (first_key src : string) : result unit :=
  if nullish v
  then Thrown (Error ("Cannot destructure property '" ++ first_key ++ "' of '"
                        ++ src ++ "' as it is " ++ type_name v ++ "."))
  else Ok tt.

(** [v.k] as a member expression: throws on a nullish [v]. *)
Definition member (v : value) (k : string) : result value :=
  if nullish v
  then Thrown (Error ("Cannot read properties of " ++ type_name v
                        ++ " (reading '" ++ k ++ "')"))
  else Ok (get v k).

(** [v === 'lit'] *)
Definition strict_eq_str (v : value) (lit : string) : bool :=
  match v with JStr s => String.eqb s lit | _ => false end.

(** ToString, as a template literal [`${v}`] or a computed key [o[v]]
    applies it.  A parsed object has no callable own property, so an own
    [toString] key shadows [Object.prototype.toString] with a non-function
    and the conversion ends in a TypeError; otherwise the inherited method
    answers ["[object Object]"].  An array is joined with commas, [null]
    and [undefined] elements giving the empty string. *)
Fixpoint to_string (v : value) : result string :=
  match v with
  | JUndefined => Ok "undefined"
  | JNull => Ok "null"
  | JBool true => Ok "true"
  | JBool false => Ok "false"
  | JNumber text => Ok text
  | JStr s => Ok s
  | JArr elems =>
      (fix join (l : list value) : result string :=
         match l with
         | [] => Ok ""
         | x :: rest =>
             let head :=
               match x with
               | JUndefined | JNull => Ok ""
               | _ => to_string x
               end in
             match head with
             | Thrown e => Thrown e
             | Ok s =>
                 match rest with
                 | [] => Ok s
                 | _ => match join rest with
                        | Thrown e => Thrown e
                        | Ok r => Ok (s ++ "," ++ r)
                        end
                 end
             end
         end) elems
  | JObj fields =>
      if has_own fields "toString"
      then Thrown (Error "Cannot convert object to primitive value")
      else Ok "[object Object]"
  end.

End Js.

Export Js.

(* ================================================================== *)
(** ** Effects: a log of observable calls and a thrown error *)

Module Eff.

Section Monad.

Variable event : Type.

Definition M (A : Type) : Type := list event * result A.

Definition ret {A} (a : A) : M A := ([], Ok a).

Definition bind {A B} (m : M A) (k : A -> M B) : M B :=
  match m with
  | (t, Ok a) => let '(t', r) := k a in ((t ++ t')%list, r)
  | (t, Thrown e) => (t, Thrown e)
  end.

Definition throw {A} (e : error) : M A := ([], Thrown e).

Definition emit (e : event) : M unit := ([e], Ok tt).

(** An effect-free expression that may throw. *)
Definition lift {A} (r : result A) : M A := ([], r).

(** [try { m } catch (e) { h e }] *)
Definition try_catch {A} (m : M A) (h : error -> M A) : M A :=
  match m with
  | (t, Ok a) => (t, Ok a)
  | (t, Thrown e) => let '(t', r) := h e in ((t ++ t')%list, r)
  end.

(** Runs [m] and hands its outcome, a value or the caught error, to the
    continuation: the shape of a [try]/[catch] whose handler returns from
    the enclosing function. *)
Definition attempt {A} (m : M A) : M (result A) :=
  (fst m, Ok (snd m)).

End Monad.

Arguments ret {event A} a.
Arguments bind {event A B} m k.
Arguments throw {event A} e.
Arguments emit {event} e.
Arguments lift {event A} r.
Arguments try_catch {event A} m h.
Arguments attempt {event A} m.

Definition trace {event A} (m : M event A) : list event := fst m.
Definition outcome {event A} (m : M event A) : result A := snd m.

End Eff.

Export Eff.

Declare Scope eff_scope.
Delimit Scope eff_scope with eff.
Notation "x <- m ;; k" := (bind m (fun x => k))
  (at level 61, m at next level, right associativity) : eff_scope.
Notation "m ;;; k" := (bind m (fun _ => k))
  (at level 61, right associativity) : eff_scope.

(* ================================================================== *)
(** ** The gateway *)

Module McpServer.

#[local] Open Scope eff_scope.

(** *** Configuration *)

Definition RAG_BASE_URL : string := "http://localhost:8000".
Definition RAG_ASK_ENDPOINT : string := RAG_BASE_URL ++ "/ask/".

(** *** The price table

    [prices] is an object literal with three own properties, each a
    [new BigNumber('...')]; a decimal is kept as the rational it denotes.
    [prices[mode]] is a computed read, so a key the literal lacks is looked
    up on [Object.prototype] before the read gives [undefined]. *)

Inductive price_value : Type :=
| PBigNumber (amount : Q)
| PUndefined
| PInherited (key : string).

Definition prices : list (string * Q) :=
  [ ("qa", 1 # 100); ("summary", 5 # 100); ("auto", 5 # 100) ]%Q.

Definition object_prototype_keys : list string :=
  [ "constructor"; "__defineGetter__"; "__defineSetter__"; "hasOwnProperty";
    "__lookupGetter__"; "__lookupSetter__"; "isPrototypeOf";
    "propertyIsEnumerable"; "toString"; "valueOf"; "__proto__";
    "toLocaleString" ].

Fixpoint assoc {A} (l : list (string * A)) (k : string) : option A :=
  match l with
  | [] => None
  | (k', a) :: rest => if String.eqb k' k then Some a else assoc rest k
  end.

Definition prices_at (key : string) : price_value :=
  match assoc prices key with
  | Some q => PBigNumber q
  | None =>
      if existsb (String.eqb key) object_prototype_keys
      then PInherited key
      else PUndefined
  end.

(** *** Collaborators

    [requirePayment({ price })] resolves, or rejects with an [Error].
    [fetch(url, init)] rejects, or resolves to a response with a [status]
    and a body that [response.json()] parses or rejects. *)

Record http_response : Type := Response {
  status : Z;
  json : result value
}.

(** [response.ok] *)
Definition ok (r : http_response) : bool :=
  (200 <=? status r)%Z && (status r <=? 299)%Z.

Record collaborators : Type := Collaborators {
  requirePayment : price_value -> result unit;
  fetch : string -> value -> result http_response
}.

(** *** Observable calls *)

Inductive event : Type :=
| CallRequirePayment (price : price_value)
| CallFetch (url : string) (payload : value)
| ResJson (body : value)
| ResStatusEnd (code : Z).

Definition M := Eff.M event.

(** [await requirePayment({ price })] *)
Definition do_requirePayment (c : collaborators) (price : price_value) : M unit :=
  emit (CallRequirePayment price) ;;; lift (requirePayment c price).

(** [await fetch(url, { method: 'POST', headers: {'Content-Type':
    'application/json'}, body: JSON.stringify(payload) })]; the event keeps
    the object that is serialised. *)
Definition do_fetch (c : collaborators) (url : string) (payload : value)
  : M http_response :=
  emit (CallFetch url payload) ;;; lift (fetch c url payload).

Definition res_json (body : value) : M unit := emit (ResJson body).
Definition res_status_end (code : Z) : M unit := emit (ResStatusEnd code).

(** *** Response envelopes *)

Definition result_envelope (id res : value) : value :=
  JObj [ ("jsonrpc", JStr "2.0"); ("id", id); ("result", res) ].

Definition error_envelope (id : value) (code : Z) (msg : string) : value :=
  JObj [ ("jsonrpc", JStr "2.0"); ("id", id);
         ("error", JObj [ ("code", JNum code); ("message", JStr msg) ]) ].

Definition initialize_result : value :=
  JObj [ ("protocolVersion", JStr "2024-11-05");
         ("capabilities", JObj [ ("tools", JObj []) ]);
         ("serverInfo", JObj [ ("name", JStr "interview-rag-server");
                               ("version", JStr "1.0.0") ]) ].

Definition ask_rag_descriptor : value :=
  JObj [ ("name", JStr "ask_rag");
         ("description", JStr "Ask questions about uploaded documents");
         ("inputSchema",
           JObj [ ("type", JStr "object");
                  ("properties",
                    JObj [ ("question",
                             JObj [ ("type", JStr "string");
                                    ("description", JStr "Your question") ]);
                           ("mode",
                             JObj [ ("type", JStr "string");
                                    ("enum", JArr [ JStr "auto"; JStr "qa";
                                                    JStr "summary" ]);
                                    ("description", JStr "Answer mode");
                                    ("default", JStr "auto") ]) ]);
                  ("required", JArr [ JStr "question" ]) ]) ].

Definition tools_list_result : value :=
  JObj [ ("tools", JArr [ ask_rag_descriptor ]) ].

Definition nl : string := String (ascii_of_nat 10) EmptyString.

(** [`Question: ${question}\nMode: ${mode}\n\nAnswer:\n${answer}`] *)
Definition format_answer (question mode answer : string) : string :=
  "Question: " ++ question ++ nl ++ "Mode: " ++ mode ++ nl ++ nl
    ++ "Answer:" ++ nl ++ answer.

Definition content_result (text : string) : value :=
  JObj [ ("content", JArr [ JObj [ ("type", JStr "text");
                                   ("text", JStr text) ] ]) ].

(** *** The handler *)

(** [const { question, mode = 'auto' } = args]: the default applies to an
    absent ([undefined]) property only. *)
Definition resolve_arguments (args : value) : result (value * value) :=
  match destructurable args "question" "args" with
  | Thrown e => Thrown e
  | Ok _ =>
      Ok (get args "question",
          match get args "mode" with
          | JUndefined => JStr "auto"
          | m => m
          end)
  end.

(** [{ question, mode }], the object whose JSON text is the request body. *)
Definition backend_payload (question mode : value) : value :=
  JObj [ ("question", question); ("mode", mode) ].

(** The [ask_rag] branch past the payment gate: one request to the backend
    and the translation of its reply. *)
Definition delegate (c : collaborators) (id question mode : value) : M unit :=
  (* console.log(`... "${question}"`) *)
  _ <- lift (to_string question) ;;
  response <- do_fetch c RAG_ASK_ENDPOINT (backend_payload question mode) ;;
  if negb (ok response)
  then throw (Error ("RAG backend returned "
                       ++ number_to_string (status response)))
  else
    data <- lift (json response) ;;
    q <- lift (to_string question) ;;
    dmode <- lift (member data "mode") ;;
    m <- lift (to_string dmode) ;;
    danswer <- lift (member data "answer") ;;
    a <- lift (to_string danswer) ;;
    res_json (result_envelope id (content_result (format_answer q m a))).

(** The [ask_rag] branch, from the destructuring of [args] on. *)
Definition ask_rag (c : collaborators) (id args : value) : M unit :=
  qm <- lift (resolve_arguments args) ;;
  let '(question, mode) := qm in
  (* prices[mode], first read inside the console.log template *)
  key <- lift (to_string mode) ;;
  let price := prices_at key in
  paid <- attempt (do_requirePayment c price) ;;
  match paid with
  | Thrown paymentError =>
      (* return res.json({...}) *)
      res_json (error_envelope id (-32603)
                  ("Payment failed: " ++ message paymentError))
  | Ok _ => delegate c id question mode
  end.

(** The two branches that end in [-32601]. *)
Definition unknown_tool (id name : value) : M unit :=
  n <- lift (to_string name) ;;
  res_json (error_envelope id (-32601) ("Unknown tool: " ++ n)).

Definition unknown_method (id method : value) : M unit :=
  m <- lift (to_string method) ;;
  res_json (error_envelope id (-32601) ("Unknown method: " ++ m)).

(** The body of the outer [try]. *)
Definition dispatch (c : collaborators) (body : value) : M unit :=
  lift (destructurable body "method" "req.body") ;;;
  let method := get body "method" in
  let params := get body "params" in
  let id := get body "id" in
  if strict_eq_str method "initialize" then
    res_json (result_envelope id initialize_result)
  else if strict_eq_str method "notifications/initialized" then
    res_status_end 200
  else if strict_eq_str method "tools/list" then
    res_json (result_envelope id tools_list_result)
  else if strict_eq_str method "tools/call" then
    lift (destructurable params "name" "params") ;;;
    let name := get params "name" in
    let args := get params "arguments" in
    if strict_eq_str name "ask_rag" then
      ask_rag c id args
    else
      unknown_tool id name
  else
    unknown_method id method.

(** [app.post('/', async (req, res) => { try {...} catch (error) {...} })];
    [body] is [req.body].  The handler of the outer [catch] reads
    [req.body.id] again. *)
Definition post_root (c : collaborators) (body : value) : M unit :=
  try_catch (dispatch c body)
    (fun error =>
       id <- lift (member body "id") ;;
       res_json (error_envelope id (-32603) (message error))).

(** The outer [try]/[catch] once [req.body.id] has been read. *)
Definition on_fault (id : value) (m : M unit) : M unit :=
  try_catch m (fun error => res_json (error_envelope id (-32603) (message error))).

(** *** Reading a trace *)

Definition is_response (e : event) : bool :=
  match e with ResJson _ | ResStatusEnd _ => true | _ => false end.

Definition is_fetch (e : event) : bool :=
  match e with CallFetch _ _ => true | _ => false end.

Definition is_payment (e : event) : bool :=
  match e with CallRequirePayment _ => true | _ => false end.

Definition responses (t : list event) : list event := filter is_response t.
Definition backend_calls (t : list event) : list event := filter is_fetch t.
Definition payment_requests (t : list event) : list event := filter is_payment t.

(** *** Shapes of a run *)

(** What the delegation leaves in the log: nothing when the log line
    throws, the request alone when the reply is a failure, the request and
    one result envelope otherwise. *)
Inductive delegate_run (id question mode : value) : M unit -> Prop :=
| DelegateUnrendered e :
    to_string question = Thrown e ->
    delegate_run id question mode ([], Thrown e)
| DelegateFailed e :
    delegate_run id question mode
      ([CallFetch RAG_ASK_ENDPOINT (backend_payload question mode)], Thrown e)
| DelegateAnswered text :
    delegate_run id question mode
      ([CallFetch RAG_ASK_ENDPOINT (backend_payload question mode);
        ResJson (result_envelope id (content_result text))], Ok tt).

Definition invokes_ask_rag (body : value) : Prop :=
  get body "method" = JStr "tools/call" /\
  get (get body "params") "name" = JStr "ask_rag".

Definition arguments_of (body : value) : value :=
  get (get body "params") "arguments".

(** The four ways the branch can go. *)
Inductive ask_rag_run (c : collaborators) (id args : value) : Prop :=
| RunUnresolved e :
    ask_rag c id args = ([], Thrown e) ->
    ask_rag_run c id args
| RunDeclined question mode key e :
    resolve_arguments args = Ok (question, mode) ->
    to_string mode = Ok key ->
    requirePayment c (prices_at key) = Thrown e ->
    ask_rag c id args =
      ([CallRequirePayment (prices_at key);
        ResJson (error_envelope id (-32603) ("Payment failed: " ++ message e))],
       Ok tt) ->
    ask_rag_run c id args
| RunPaid question mode key :
    resolve_arguments args = Ok (question, mode) ->
    to_string mode = Ok key ->
    requirePayment c (prices_at key) = Ok tt ->
    ask_rag c id args =
      (CallRequirePayment (prices_at key) :: trace (delegate c id question mode),
       outcome (delegate c id question mode)) ->
    ask_rag_run c id args.

(** Every log the handler can leave for an object body, with [id] the
    [id] of the request. *)
Inductive gateway_run (c : collaborators) (body : value) : list event -> Prop :=
| LogAcknowledged :
    get body "method" = JStr "notifications/initialized" ->
    gateway_run c body [ResStatusEnd 200]
| LogResult res :
    get body "method" <> JStr "notifications/initialized" ->
    res <> JUndefined ->
    gateway_run c body [ResJson (result_envelope (get body "id") res)]
| LogError code msg :
    get body "method" <> JStr "notifications/initialized" ->
    code = (-32601)%Z \/ code = (-32603)%Z ->
    gateway_run c body [ResJson (error_envelope (get body "id") code msg)]
| LogDeclined price reason :
    invokes_ask_rag body ->
    requirePayment c price = Thrown (Error reason) ->
    gateway_run c body
      [CallRequirePayment price;
       ResJson (error_envelope (get body "id") (-32603)
                  ("Payment failed: " ++ reason))]
| LogPaidFault price msg :
    invokes_ask_rag body ->
    requirePayment c price = Ok tt ->
    gateway_run c body
      [CallRequirePayment price;
       ResJson (error_envelope (get body "id") (-32603) msg)]
| LogBackendFault price payload msg :
    invokes_ask_rag body ->
    requirePayment c price = Ok tt ->
    gateway_run c body
      [CallRequirePayment price;
       CallFetch RAG_ASK_ENDPOINT payload;
       ResJson (error_envelope (get body "id") (-32603) msg)]
| LogAnswered price payload text :
    invokes_ask_rag body ->
    requirePayment c price = Ok tt ->
    gateway_run c body
      [CallRequirePayment price;
       CallFetch RAG_ASK_ENDPOINT payload;
       ResJson (result_envelope (get body "id") (content_result text))].

Ltac in_cases H :=
  simpl in H;
  repeat (destruct H as [H | H]; [try discriminate H | ]);
  try contradiction.

(** Sample collaborators: a payer that always authorises or always
    declines, a backend that answers or fails with a status. *)
Definition backend_answers (data : value) : string -> value -> result http_response :=
  fun _ _ => Ok (Response 200 (Ok data)).

Definition backend_status (code : Z) : string -> value -> result http_response :=
  fun _ _ => Ok (Response code (Ok JNull)).

Definition paying (backend : string -> value -> result http_response) : collaborators :=
  Collaborators (fun _ => Ok tt) backend.

Definition declining (reason : string) (backend : string -> value -> result http_response)
  : collaborators :=
  Collaborators (fun _ => Thrown (Error reason)) backend.

Definition sample_data : value :=
  JObj [ ("mode", JStr "qa"); ("answer", JStr "42") ].

Definition call_ask_rag (id : value) (args : value) : value :=
  JObj [ ("jsonrpc", JStr "2.0"); ("id", id); ("method", JStr "tools/call");
         ("params", JObj [ ("name", JStr "ask_rag"); ("arguments", args) ]) ].

Definition sample_call : value :=
  call_ask_rag (JNum 7)
    (JObj [ ("question", JStr "What is the answer?"); ("mode", JStr "qa") ]).

Definition unlisted_mode_call : value :=
  call_ask_rag (JNum 7)
    (JObj [ ("question", JStr "What is the answer?"); ("mode", JStr "bogus") ]).

Definition empty_question_call : value :=
  call_ask_rag (JNum 8) (JObj [ ("question", JStr "") ]).

Definition initialize_call : value :=
  JObj [ ("jsonrpc", JStr "2.0"); ("id", JNum 1); ("method", JStr "initialize") ].

Definition initialized_notification : value :=
  JObj [ ("jsonrpc", JStr "2.0"); ("method", JStr "notifications/initialized") ].

Definition tools_list_call : value :=
  JObj [ ("jsonrpc", JStr "2.0"); ("id", JStr "list-1"); ("method", JStr "tools/list") ].

Definition unknown_tool_call : value :=
  JObj [ ("jsonrpc", JStr "2.0"); ("id", JNum 3); ("method", JStr "tools/call");
         ("params", JObj [ ("name", JStr "delete_everything");
                           ("arguments", JObj []) ]) ].

Definition unknown_method_call : value :=
  JObj [ ("jsonrpc", JStr "2.0"); ("id", JNum 4); ("method", JStr "resources/list") ].

Definition call_without_params : value :=
  JObj [ ("jsonrpc", JStr "2.0"); ("id", JNum 5); ("method", JStr "tools/call") ].

Definition call_without_arguments : value :=
  JObj [ ("jsonrpc", JStr "2.0"); ("id", JNum 6); ("method", JStr "tools/call");
         ("params", JObj [ ("name", JStr "ask_rag") ]) ].

(** An envelope is a result or an error for the given [id], never both. *)
Definition envelope_for (id env : value) : Prop :=
  (exists res, env = result_envelope id res) \/
  (exists code msg, env = error_envelope id code msg).

(** [s] occurs in [text]. *)
Definition contains (text s : string) : Prop :=
  exists before after, text = before ++ s ++ after.

(** The methods the dispatcher has a branch for. *)
Definition known_methods : list string :=
  [ "initialize"; "notifications/initialized"; "tools/list"; "tools/call" ].

(** [env.error.code] and [env.error.message] *)
Definition error_code (env : value) : value := get (get env "error") "code".
Definition error_message (env : value) : value := get (get env "error") "message".

(** What a caller reads in an error reply: the marker, the [id], no
    result, and this code and message. *)
Definition is_error_reply (id : value) (code : Z) (msg : string) (env : value) : Prop :=
  get env "jsonrpc" = JStr "2.0" /\
  get env "id" = id /\
  get env "result" = JUndefined /\
  error_code env = JNum code /\
  error_message env = JStr msg.

(** A reply holds a result or an error, never both and never neither. *)
Definition well_formed_reply (id env : value) : Prop :=
  get env "jsonrpc" = JStr "2.0" /\
  get env "id" = id /\
  ((get env "result" <> JUndefined /\ get env "error" = JUndefined) \/
   (get env "result" = JUndefined /\
    exists code msg, error_code env = JNum code /\ error_message env = JStr msg)).

(** Requests whose question, tool name or method has no text form. *)
Definition unprintable : value := JObj [ ("toString", JNum 1) ].

Definition unprintable_question_call : value :=
  call_ask_rag (JNum 11) (JObj [ ("question", unprintable) ]).

Definition unprintable_name_call : value :=
  JObj [ ("jsonrpc", JStr "2.0"); ("id", JNum 3); ("method", JStr "tools/call");
         ("params", JObj [ ("name", unprintable); ("arguments", JObj []) ]) ].

Definition unprintable_method_call : value :=
  JObj [ ("jsonrpc", JStr "2.0"); ("id", JNum 4); ("method", unprintable) ].

End McpServer.

(* ================================================================== *)
(** ** What goes over the wire *)

Module Json.

(** A Number other than the infinities and NaN, by its text. *)
Definition finite_number (text : string) : bool :=
  negb (String.eqb text "Infinity" || String.eqb text "-Infinity"
        || String.eqb text "NaN").

(** What a JSON parser reads back from [JSON.stringify(v)], the text that
    [res.json(v)] sends and that the [fetch] call puts in its body: a
    property whose value is [undefined] is left out, an [undefined] array
    element and a Number that is not finite become [null]. *)
Fixpoint stringify_view (v : value) : value :=
  match v with
  | JNumber text => if finite_number text then v else JNull
  | JArr elems =>
      JArr (map (fun x => match x with
                          | JUndefined => JNull
                          | _ => stringify_view x
                          end) elems)
  | JObj fields =>
      JObj ((fix members (l : list (string * value)) : list (string * value) :=
               match l with
               | [] => []
               | (k, x) :: rest =>
                   match x with
                   | JUndefined => members rest
                   | _ => (k, stringify_view x) :: members rest
                   end
               end) fields)
  | _ => v
  end.

(** The values whose conversion to text succeeds: arrays of such values,
    and everything but an object with an own [toString] key. *)
Fixpoint printable (v : value) : bool :=
  match v with
  | JArr elems => forallb printable elems
  | JObj fields => negb (has_own fields "toString")
  | _ => true
  end.

(** [k in v], for an own key. *)
Definition has_member (v : value) (k : string) : bool :=
  match v with
  | JObj fields => has_own fields k
  | _ => false
  end.

(** The text an array element contributes to the join. *)
Definition element_text (x : value) : result string :=
  match x with
  | JUndefined | JNull => Ok ""
  | _ => to_string x
  end.

(** [to_string] succeeds exactly on the printable values, and fails in
    one way. *)
Definition converts (v : value) : Prop :=
  if printable v
  then exists s, to_string v = Ok s
  else to_string v = Thrown (Error "Cannot convert object to primitive value").

End Json.

Export Json.

(* ================================================================== *)
(** ** The agent *)

Module Agent.

(** [!process.env.ATXP_CONNECTION_STRING]: unset, or set to the empty string. *)
Definition missing (env : option string) : bool :=
  match env with
  | None => true
  | Some s => String.eqb s ""
  end.

Inductive ending : Type :=
| Returned
| Exit (code : Z).

Definition mcpServer : string := "https://97d2858bdad6.ngrok-free.app".
Definition toolName : string := "ask_rag".

(** [getArguments: (question) => ({ question, mode: 'auto' })] *)
Definition getArguments (question : string) : value :=
  JObj [ ("question", JStr question); ("mode", JStr "auto") ].

(** [getResult: (result) => result] *)
Definition getResult (result : value) : value := result.

Definition prompt : string := "What is the structure followed by the speaker?".

(** [atxpClient({ mcpServer, account: new ATXPAccount(connectionString) })]
    resolves to a client or rejects; [client.callTool({ name, arguments })]
    resolves to a result or rejects. *)
Record services : Type := Services {
  atxpClient : string -> string -> result unit;
  callTool : string -> value -> result value
}.

Inductive event : Type :=
| Connect (server credential : string)
| CallTool (name : string) (arguments : value)
| PrintResult (shown : value)
| PrintCallError (e : error)
| PrintFatal (e : error)
| PrintNoCredential.

(** [main().catch(...)]: what the process does and how it ends. *)
Definition main (env : option string) (s : services) : list event * ending :=
  match env with
  | None => ([PrintNoCredential], Exit 1)
  | Some connectionString =>
      if missing env then ([PrintNoCredential], Exit 1)
      else
        match atxpClient s mcpServer connectionString with
        | Thrown e =>
            ([Connect mcpServer connectionString; PrintFatal e], Exit 1)
        | Ok _ =>
            match callTool s toolName (getArguments prompt) with
            | Ok r =>
                ([Connect mcpServer connectionString;
                  CallTool toolName (getArguments prompt);
                  PrintResult (getResult r)], Returned)
            | Thrown e =>
                ([Connect mcpServer connectionString;
                  CallTool toolName (getArguments prompt);
                  PrintCallError e], Exit 1)
            end
        end
  end.

Definition is_call (e : event) : bool :=
  match e with CallTool _ _ => true | _ => false end.

Definition is_connect (e : event) : bool :=
  match e with Connect _ _ => true | _ => false end.

(** Sample services. *)
Definition reachable (answer : value) : services :=
  Services (fun _ _ => Ok tt) (fun _ _ => Ok answer).

Definition payment_required : services :=
  Services (fun _ _ => Ok tt) (fun _ _ => Thrown (Error "Payment required")).

Definition unreachable : services :=
  Services (fun _ _ => Thrown (Error "connect ECONNREFUSED"))
           (fun _ _ => Ok JNull).

End Agent.

(* ================================================================== *)
(** ** Properties *)

Import McpServer.

#[local] Open Scope Z_scope.

(** *** Basic facts about the coercions *)

Lemma strict_eq_str_true (v : value) (lit : string) :
  strict_eq_str v lit = true <-> v = JStr lit.
Proof.
  destruct v; simpl; split; intro H; try discriminate.
  - apply String.eqb_eq in H. now subst.
  - injection H as ->. apply String.eqb_refl.
Qed.

Lemma get_defined_object (v : value) (k : string) :
  get v k <> JUndefined -> exists fields, v = JObj fields.
Proof.
  destruct v; simpl; intro H; try congruence. now eexists.
Qed.

Lemma get_string_not_nullish (v : value) (k s : string) :
  get v k = JStr s -> nullish v = false.
Proof.
  intro H. destruct (get_defined_object v k) as [f ->]; [congruence | reflexivity].
Qed.

Lemma member_not_nullish (v : value) (k : string) :
  nullish v = false -> member v k = Ok (get v k).
Proof. unfold member. now intros ->. Qed.

Lemma destructurable_not_nullish (v : value) (k src : string) :
  nullish v = false -> destructurable v k src = Ok tt.
Proof. unfold destructurable. now intros ->. Qed.

(** *** The handler, branch by branch *)

Section Branches.

Variable c : collaborators.
Variable body : value.

Lemma post_root_not_nullish :
  nullish body = false ->
  post_root c body = on_fault (get body "id") (dispatch c body).
Proof.
  intro Hb. unfold post_root, on_fault.
  rewrite (member_not_nullish _ _ Hb).
  destruct (dispatch c body) as [t [a | e]]; reflexivity.
Qed.

Lemma post_root_initialize :
  get body "method" = JStr "initialize" ->
  post_root c body =
    ([ResJson (result_envelope (get body "id") initialize_result)], Ok tt).
Proof.
  intro Hm. pose proof (get_string_not_nullish _ _ _ Hm) as Hb.
  rewrite (post_root_not_nullish Hb). unfold dispatch.
  rewrite (destructurable_not_nullish _ _ _ Hb).
  rewrite Hm. reflexivity.
Qed.

Lemma post_root_initialized :
  get body "method" = JStr "notifications/initialized" ->
  post_root c body = ([ResStatusEnd 200], Ok tt).
Proof.
  intro Hm. pose proof (get_string_not_nullish _ _ _ Hm) as Hb.
  rewrite (post_root_not_nullish Hb). unfold dispatch.
  rewrite (destructurable_not_nullish _ _ _ Hb).
  rewrite Hm. reflexivity.
Qed.

Lemma post_root_tools_list :
  get body "method" = JStr "tools/list" ->
  post_root c body =
    ([ResJson (result_envelope (get body "id") tools_list_result)], Ok tt).
Proof.
  intro Hm. pose proof (get_string_not_nullish _ _ _ Hm) as Hb.
  rewrite (post_root_not_nullish Hb). unfold dispatch.
  rewrite (destructurable_not_nullish _ _ _ Hb).
  rewrite Hm. reflexivity.
Qed.

Lemma post_root_tools_call_no_params :
  get body "method" = JStr "tools/call" ->
  nullish (get body "params") = true ->
  post_root c body =
    ([ResJson (error_envelope (get body "id") (-32603)
                 ("Cannot destructure property 'name' of 'params' as it is "
                    ++ type_name (get body "params") ++ "."))], Ok tt).
Proof.
  intros Hm Hp. pose proof (get_string_not_nullish _ _ _ Hm) as Hb.
  rewrite (post_root_not_nullish Hb). unfold dispatch.
  rewrite (destructurable_not_nullish _ _ _ Hb).
  rewrite Hm. unfold destructurable. rewrite Hp.
  reflexivity.
Qed.

Lemma post_root_tools_call_other :
  get body "method" = JStr "tools/call" ->
  nullish (get body "params") = false ->
  strict_eq_str (get (get body "params") "name") "ask_rag" = false ->
  post_root c body =
    on_fault (get body "id")
      (unknown_tool (get body "id") (get (get body "params") "name")).
Proof.
  intros Hm Hp Hn. pose proof (get_string_not_nullish _ _ _ Hm) as Hb.
  rewrite (post_root_not_nullish Hb). unfold dispatch.
  rewrite (destructurable_not_nullish _ _ _ Hb).
  rewrite Hm.
  rewrite (destructurable_not_nullish _ _ _ Hp). simpl.
  rewrite Hn.
  destruct (unknown_tool _ _) as [t r]. reflexivity.
Qed.

Lemma post_root_tools_call_ask_rag :
  get body "method" = JStr "tools/call" ->
  get (get body "params") "name" = JStr "ask_rag" ->
  post_root c body =
    on_fault (get body "id")
      (ask_rag c (get body "id") (get (get body "params") "arguments")).
Proof.
  intros Hm Hn. pose proof (get_string_not_nullish _ _ _ Hm) as Hb.
  pose proof (get_string_not_nullish _ _ _ Hn) as Hp.
  rewrite (post_root_not_nullish Hb). unfold dispatch.
  rewrite (destructurable_not_nullish _ _ _ Hb).
  rewrite Hm.
  rewrite (destructurable_not_nullish _ _ _ Hp). simpl.
  rewrite Hn. simpl.
  destruct (ask_rag _ _ _) as [t r]. reflexivity.
Qed.

Lemma post_root_other_method :
  nullish body = false ->
  strict_eq_str (get body "method") "initialize" = false ->
  strict_eq_str (get body "method") "notifications/initialized" = false ->
  strict_eq_str (get body "method") "tools/list" = false ->
  strict_eq_str (get body "method") "tools/call" = false ->
  post_root c body =
    on_fault (get body "id") (unknown_method (get body "id") (get body "method")).
Proof.
  intros Hb H1 H2 H3 H4.
  rewrite (post_root_not_nullish Hb). unfold dispatch.
  rewrite (destructurable_not_nullish _ _ _ Hb).
  rewrite H1, H2, H3, H4. simpl.
  destruct (unknown_method _ _) as [t r]. reflexivity.
Qed.

End Branches.

(** *** Shapes of the [ask_rag] branch *)

(** What the delegation leaves in the log. *)
Lemma delegate_shape (c : collaborators) (id question mode : value) :
  delegate_run id question mode (delegate c id question mode).
Proof.
  unfold delegate, do_fetch, res_json.
  destruct (to_string question) as [q | e] eqn:Hq; simpl.
  2: now constructor.
  destruct (fetch c _ _) as [r | e]; simpl.
  2: constructor 2.
  destruct (ok r); simpl.
  2: constructor 2.
  destruct (json r) as [data | e]; simpl.
  2: constructor 2.
  destruct (member data "mode") as [dm | e]; simpl.
  2: constructor 2.
  destruct (to_string dm) as [m | e]; simpl.
  2: constructor 2.
  destruct (member data "answer") as [da | e]; simpl.
  2: constructor 2.
  destruct (to_string da) as [a | e]; simpl.
  2: constructor 2.
  constructor 3.
Qed.

(** The branch up to and including the gate. *)
Lemma ask_rag_no_arguments (c : collaborators) (id args : value) e :
  resolve_arguments args = Thrown e ->
  ask_rag c id args = ([], Thrown e).
Proof. unfold ask_rag. now intros ->. Qed.

Lemma ask_rag_no_key (c : collaborators) (id args question mode : value) e :
  resolve_arguments args = Ok (question, mode) ->
  to_string mode = Thrown e ->
  ask_rag c id args = ([], Thrown e).
Proof. unfold ask_rag. intros -> Hk. simpl. now rewrite Hk. Qed.

Lemma ask_rag_declined (c : collaborators) (id args question mode : value) key e :
  resolve_arguments args = Ok (question, mode) ->
  to_string mode = Ok key ->
  requirePayment c (prices_at key) = Thrown e ->
  ask_rag c id args =
    ([CallRequirePayment (prices_at key);
      ResJson (error_envelope id (-32603) ("Payment failed: " ++ message e))],
     Ok tt).
Proof.
  unfold ask_rag, do_requirePayment. intros -> Hk Hp. simpl.
  rewrite Hk. simpl. now rewrite Hp.
Qed.

Lemma ask_rag_paid (c : collaborators) (id args question mode : value) key :
  resolve_arguments args = Ok (question, mode) ->
  to_string mode = Ok key ->
  requirePayment c (prices_at key) = Ok tt ->
  ask_rag c id args =
    (CallRequirePayment (prices_at key) :: trace (delegate c id question mode),
     outcome (delegate c id question mode)).
Proof.
  unfold ask_rag, do_requirePayment. intros -> Hk Hp. simpl.
  rewrite Hk. simpl. rewrite Hp. simpl.
  now destruct (delegate c id question mode).
Qed.

Lemma ask_rag_cases (c : collaborators) (id args : value) : ask_rag_run c id args.
Proof.
  destruct (resolve_arguments args) as [[question mode] | e] eqn:Hr.
  2: { eapply RunUnresolved. apply ask_rag_no_arguments. exact Hr. }
  destruct (to_string mode) as [key | e] eqn:Hk.
  2: { eapply RunUnresolved. eapply ask_rag_no_key; eauto. }
  destruct (requirePayment c (prices_at key)) as [[] | e] eqn:Hp.
  - eapply RunPaid; eauto using ask_rag_paid.
  - eapply RunDeclined; eauto using ask_rag_declined.
Qed.

Lemma on_fault_trace (id : value) (m : M unit) :
  trace (on_fault id m) =
    (trace m ++ match outcome m with
                | Ok _ => []
                | Thrown e => [ResJson (error_envelope id (-32603) (message e))]
                end)%list.
Proof.
  destruct m as [t [a | e]]; simpl; [now rewrite app_nil_r | reflexivity].
Qed.

Lemma on_fault_outcome (id : value) (m : M unit) :
  outcome (on_fault id m) = Ok tt.
Proof. destruct m as [t [[] | e]]; reflexivity. Qed.

Lemma error_envelope_reply (id : value) (code : Z) (msg : string) :
  is_error_reply id code msg (error_envelope id code msg).
Proof. repeat split. Qed.

Lemma envelope_well_formed (id env : value) :
  (exists res, res <> JUndefined /\ env = result_envelope id res) \/
  (exists code msg, env = error_envelope id code msg) ->
  well_formed_reply id env.
Proof.
  intros [(res & Hres & ->) | (code & msg & ->)];
    (split; [reflexivity | split; [reflexivity | ]]).
  - left. split; [exact Hres | reflexivity].
  - right. split; [reflexivity | ]. exists code, msg. split; reflexivity.
Qed.

Lemma delegate_fetches (c : collaborators) (id question mode : value) q :
  to_string question = Ok q ->
  exists rest,
    trace (delegate c id question mode) =
      CallFetch RAG_ASK_ENDPOINT (backend_payload question mode) :: rest.
Proof.
  intro Hq. pose proof (delegate_shape c id question mode) as Hshape.
  inversion Hshape as [e Hthrown Hd | e Hd | text Hd];
    [congruence | eexists; reflexivity | eexists; reflexivity].
Qed.

Lemma assoc_prices_some (key : string) (q : Q) :
  assoc prices key = Some q <->
  (key = "qa" /\ q = (1 # 100)%Q) \/
  (key = "summary" /\ q = (5 # 100)%Q) \/
  (key = "auto" /\ q = (5 # 100)%Q).
Proof.
  unfold prices. cbn [assoc]. split.
  - destruct (String.eqb_spec "qa" key) as [<- | _].
    { intro H. injection H as <-. auto. }
    destruct (String.eqb_spec "summary" key) as [<- | _].
    { intro H. injection H as <-. auto. }
    destruct (String.eqb_spec "auto" key) as [<- | _].
    { intro H. injection H as <-. auto. }
    discriminate.
  - intros [[-> ->] | [[-> ->] | [-> ->]]]; reflexivity.
Qed.

Lemma assoc_prices_none (key : string) :
  ~ In key ["qa"; "summary"; "auto"] -> assoc prices key = None.
Proof.
  intro Hnot. destruct (assoc prices key) as [q | ] eqn:H; [ | reflexivity].
  exfalso. apply Hnot. apply assoc_prices_some in H. simpl.
  destruct H as [[-> _] | [[-> _] | [-> _]]]; auto.
Qed.

Lemma prices_at_unlisted (key : string) :
  ~ In key ["qa"; "summary"; "auto"] ->
  (In key object_prototype_keys -> prices_at key = PInherited key) /\
  (~ In key object_prototype_keys -> prices_at key = PUndefined).
Proof.
  intro Hnot. unfold prices_at. rewrite (assoc_prices_none key Hnot).
  destruct (existsb (String.eqb key) object_prototype_keys) eqn:He.
  - split; [reflexivity | ].
    intro Hout. exfalso. apply Hout.
    apply existsb_exists in He. destruct He as (k & Hin & Heq).
    apply String.eqb_eq in Heq. now subst k.
  - split; [ | reflexivity].
    intro Hin. exfalso.
    assert (existsb (String.eqb key) object_prototype_keys = true).
    { apply existsb_exists. exists key. split; [exact Hin | apply String.eqb_refl]. }
    congruence.
Qed.

(** The log of an [ask_rag] call, on either side of the gate. *)
Lemma ask_rag_gate_log (c : collaborators) (body : value) :
  invokes_ask_rag body ->
  let t := trace (post_root c body) in
  (forall price reason,
      In (CallRequirePayment price) t ->
      requirePayment c price = Thrown (Error reason) ->
      t = [CallRequirePayment price;
           ResJson (error_envelope (get body "id") (-32603)
                      ("Payment failed: " ++ reason))]
      /\ backend_calls t = [])
  /\ (forall url payload,
      In (CallFetch url payload) t ->
      exists price rest,
        t = CallRequirePayment price :: rest /\
        requirePayment c price = Ok tt)
  /\ (forall price q,
      In (CallRequirePayment price) t ->
      requirePayment c price = Ok tt ->
      to_string (get (arguments_of body) "question") = Ok q ->
      exists payload rest,
        t = CallRequirePayment price :: CallFetch RAG_ASK_ENDPOINT payload :: rest /\
        backend_calls rest = [] /\ payment_requests rest = []).
Proof.
  intros [Hm Hn] t. subst t.
  rewrite (post_root_tools_call_ask_rag c body Hm Hn), on_fault_trace.
  destruct (ask_rag_cases c (get body "id") (get (get body "params") "arguments"))
    as [e Hrun | question mode key e Hr Hk Hp Hrun | question mode key Hr Hk Hp Hrun];
    rewrite Hrun; simpl.
  - (* the gate is never reached *)
    split; [ | split].
    + intros price reason Hin. in_cases Hin.
    + intros url payload Hin. in_cases Hin.
    + intros price q Hin. in_cases Hin.
  - (* declined *)
    split; [ | split].
    + intros price reason Hin Hthrows. in_cases Hin. injection Hin as <-.
      rewrite Hp in Hthrows. injection Hthrows as ->. now split.
    + intros url payload Hin. in_cases Hin.
    + intros price q Hin Hok. in_cases Hin. injection Hin as <-. congruence.
  - (* authorised *)
    assert (Hq : get (arguments_of body) "question" = question).
    { unfold resolve_arguments in Hr.
      destruct (destructurable _ _ _); [ | discriminate].
      now injection Hr as <- _. }
    pose proof (delegate_shape c (get body "id") question mode) as Hshape.
    assert (Hdeclines : forall price reason,
               In (CallRequirePayment price)
                  (CallRequirePayment (prices_at key)
                     :: trace (delegate c (get body "id") question mode)
                     ++ match outcome (delegate c (get body "id") question mode) with
                        | Ok _ => []
                        | Thrown e =>
                            [ResJson (error_envelope (get body "id") (-32603) (message e))]
                        end) ->
               requirePayment c price = Thrown (Error reason) -> False).
    { intros price reason Hin Hthrows.
      inversion Hshape as [e Hthrown Hd | e Hd | text Hd]; rewrite <- Hd in Hin;
        in_cases Hin; injection Hin as <-; congruence. }
    split; [ | split].
    + intros price reason Hin Hthrows. exfalso. eauto.
    + intros url payload Hin. eauto.
    + intros price q Hin Hok Hrender. rewrite Hq in Hrender.
      inversion Hshape as [e Hthrown Hd | e Hd | text Hd]; rewrite <- Hd in *;
        [congruence | | ];
        in_cases Hin; injection Hin as <-; eexists _, _; repeat split.
Qed.

(** C1 as the specification states it fails at a question that has no
    text form: the payment is authorised, the log line that interpolates
    the question throws, and no backend request follows. *)
Lemma authorised_payment_without_backend_request :
  requirePayment (paying (backend_answers sample_data)) (PBigNumber (5 # 100))
    = Ok tt /\
  post_root (paying (backend_answers sample_data)) unprintable_question_call =
    ([CallRequirePayment (PBigNumber (5 # 100));
      ResJson (error_envelope (JNum 11) (-32603)
                 "Cannot convert object to primitive value")],
     Ok tt) /\
  backend_calls
    (trace (post_root (paying (backend_answers sample_data))
              unprintable_question_call)) = [].
Proof. repeat split. Qed.

(** C1, amended.  On a [tools/call] of [ask_rag] the backend is reached
    only through the payment gate.  When [requirePayment] throws, the log
    is the payment request followed by one reply, an error for the
    request's [id] with code -32603 and the message "Payment failed: "
    and the collaborator's reason, and no [fetch] is issued.  A [fetch] in
    the log is always preceded by a payment request that resolved.  When
    the request resolved and the question converts to text, exactly one
    [fetch] follows it, to the backend's address and with the question as
    given. *)
Theorem payment_gate_guards_backend (c : collaborators) (body : value) :
  invokes_ask_rag body ->
  let t := trace (post_root c body) in
  (forall price reason,
      In (CallRequirePayment price) t ->
      requirePayment c price = Thrown (Error reason) ->
      (exists env,
          t = [CallRequirePayment price; ResJson env] /\
          is_error_reply (get body "id") (-32603)
            ("Payment failed: " ++ reason) env) /\
      backend_calls t = [])
  /\ (forall url payload,
      In (CallFetch url payload) t ->
      exists price rest,
        t = CallRequirePayment price :: rest /\
        requirePayment c price = Ok tt)
  /\ (forall price q,
      In (CallRequirePayment price) t ->
      requirePayment c price = Ok tt ->
      to_string (get (arguments_of body) "question") = Ok q ->
      exists payload rest,
        t = CallRequirePayment price :: CallFetch RAG_ASK_ENDPOINT payload :: rest /\
        get payload "question" = get (arguments_of body) "question" /\
        backend_calls rest = [] /\ payment_requests rest = []).
Proof.
  intros Hinv t. subst t.
  destruct (ask_rag_gate_log c body Hinv) as (Hdeclined & Hfetch & Hpaid).
  split; [ | split].
  - intros price reason Hin Hthrows.
    destruct (Hdeclined price reason Hin Hthrows) as [Ht Hnone].
    split; [ | exact Hnone].
    eexists. split; [exact Ht | apply error_envelope_reply].
  - exact Hfetch.
  - intros price q Hin Hok Hq.
    destruct (Hpaid price q Hin Hok Hq) as (payload & rest & Ht & Hb & Hp).
    exists payload, rest. repeat split; try assumption.
    destruct Hinv as [Hm Hn].
    rewrite (post_root_tools_call_ask_rag c body Hm Hn), on_fault_trace in Ht.
    destruct (ask_rag_cases c (get body "id") (get (get body "params") "arguments"))
      as [e Hrun | question mode key e Hr Hk Hp' Hrun | question mode key Hr Hk Hp' Hrun];
      rewrite Hrun in Ht; simpl in Ht; try discriminate Ht.
    assert (Hquestion : get (arguments_of body) "question" = question).
    { unfold resolve_arguments in Hr.
      destruct (destructurable _ _ _); [ | discriminate].
      now injection Hr as <- _. }
    rewrite Hquestion in *.
    destruct (delegate_fetches c (get body "id") question mode q Hq) as [rest' Hd].
    rewrite Hd in Ht. simpl in Ht. injection Ht as _ <- _. reflexivity.
Qed.

Lemma payment_gate_guards_backend_witness :
  ((exists env,
       trace (post_root (declining "insufficient funds" (backend_answers sample_data))
                sample_call)
       = [CallRequirePayment (PBigNumber (1 # 100)); ResJson env] /\
       is_error_reply (JNum 7) (-32603) "Payment failed: insufficient funds" env)
   /\ backend_calls
        (trace (post_root (declining "insufficient funds"
                             (backend_answers sample_data)) sample_call)) = [])
  /\ exists payload rest,
      trace (post_root (paying (backend_answers sample_data)) sample_call)
      = CallRequirePayment (PBigNumber (1 # 100))
          :: CallFetch RAG_ASK_ENDPOINT payload :: rest
      /\ get payload "question" = JStr "What is the answer?"
      /\ backend_calls rest = [] /\ payment_requests rest = [].
Proof.
  assert (Hinv : invokes_ask_rag sample_call) by (split; reflexivity).
  split.
  - apply (proj1 (payment_gate_guards_backend
                    (declining "insufficient funds" (backend_answers sample_data))
                    sample_call Hinv)
             (PBigNumber (1 # 100)) "insufficient funds").
    + simpl. left. reflexivity.
    + reflexivity.
  - apply (proj2 (proj2 (payment_gate_guards_backend
                           (paying (backend_answers sample_data))
                           sample_call Hinv))
             (PBigNumber (1 # 100)) "What is the answer?").
    + simpl. left. reflexivity.
    + reflexivity.
    + reflexivity.
Defined.

Lemma delegate_no_payment (c : collaborators) (id question mode : value) :
  payment_requests (trace (on_fault id (delegate c id question mode))) = [].
Proof.
  rewrite on_fault_trace.
  pose proof (delegate_shape c id question mode) as Hshape.
  inversion Hshape as [e Hthrown Hd | e Hd | text Hd]; reflexivity.
Qed.

Lemma payment_requests_pay (price : price_value) (t : list event) :
  payment_requests (CallRequirePayment price :: t) =
    CallRequirePayment price :: payment_requests t.
Proof. reflexivity. Qed.

Lemma on_fault_cons (id : value) (e : event) (t : list event) (r : result unit) :
  trace (on_fault id (e :: t, r)) = e :: trace (on_fault id (t, r)).
Proof. destruct r; reflexivity. Qed.

Lemma on_fault_paid (id : value) (e : event) (m : M unit) :
  trace (on_fault id (e :: trace m, outcome m)) = e :: trace (on_fault id m).
Proof. destruct m as [t r]. apply on_fault_cons. Qed.

(** C2. On an [ask_rag] call whose mode resolves to qa, summary or auto,
    the first thing the handler does is one [requirePayment] with the
    table's amount for that mode (0.01, 0.05, 0.05); nothing else in the
    log is a payment request, so every backend call comes after it. *)
Theorem price_quoted_once_before_backend
    (c : collaborators) (body question : value) (m : string) :
  invokes_ask_rag body ->
  resolve_arguments (arguments_of body) = Ok (question, JStr m) ->
  In m ["qa"; "summary"; "auto"] ->
  exists amount rest,
    assoc prices m = Some amount /\
    amount = (if String.eqb m "qa" then 1 # 100 else 5 # 100)%Q /\
    trace (post_root c body) = CallRequirePayment (PBigNumber amount) :: rest /\
    payment_requests rest = [] /\
    payment_requests (trace (post_root c body)) =
      [CallRequirePayment (PBigNumber amount)].
Proof.
  intros [Hm Hn] Hr Hin. unfold arguments_of in Hr.
  rewrite (post_root_tools_call_ask_rag c body Hm Hn).
  assert (Hprice : exists amount,
             assoc prices m = Some amount /\
             amount = (if String.eqb m "qa" then 1 # 100 else 5 # 100)%Q /\
             prices_at m = PBigNumber amount).
  { in_cases Hin; subst m; eexists; repeat split. }
  destruct Hprice as (amount & Htable & Hamount & Hat).
  exists amount.
  destruct (requirePayment c (prices_at m)) as [[] | e] eqn:Hp.
  - rewrite (ask_rag_paid c _ _ question (JStr m) m Hr eq_refl Hp).
    rewrite on_fault_paid, Hat.
    pose proof (delegate_no_payment c (get body "id") question (JStr m)) as Hnone.
    exists (trace (on_fault (get body "id")
                     (delegate c (get body "id") question (JStr m)))).
    repeat split; try assumption.
    rewrite payment_requests_pay, Hnone. reflexivity.
  - rewrite (ask_rag_declined c _ _ question (JStr m) m e Hr eq_refl Hp), Hat.
    eexists. repeat split; assumption.
Qed.

Lemma price_quoted_once_before_backend_witness :
  exists amount rest,
    assoc prices "summary" = Some amount /\
    amount = (5 # 100)%Q /\
    trace (post_root (paying (backend_answers sample_data))
             (call_ask_rag (JStr "r-1")
                (JObj [ ("question", JStr "Summarise the talk");
                        ("mode", JStr "summary") ])))
    = CallRequirePayment (PBigNumber amount) :: rest /\
    payment_requests rest = [] /\
    payment_requests
      (trace (post_root (paying (backend_answers sample_data))
                (call_ask_rag (JStr "r-1")
                   (JObj [ ("question", JStr "Summarise the talk");
                           ("mode", JStr "summary") ]))))
    = [CallRequirePayment (PBigNumber amount)].
Proof.
  apply (price_quoted_once_before_backend
           (paying (backend_answers sample_data))
           (call_ask_rag (JStr "r-1")
              (JObj [ ("question", JStr "Summarise the talk");
                      ("mode", JStr "summary") ]))
           (JStr "Summarise the talk") "summary").
  - split; reflexivity.
  - reflexivity.
  - simpl. right. left. reflexivity.
Defined.

(** *** Every log of the handler *)

Lemma strict_eq_str_false (v : value) (lit : string) :
  strict_eq_str v lit = false -> v <> JStr lit.
Proof.
  intros H Hv. apply strict_eq_str_true in Hv. congruence.
Qed.

Lemma ask_rag_logs (c : collaborators) (body : value) :
  invokes_ask_rag body ->
  gateway_run c body
    (trace (on_fault (get body "id")
              (ask_rag c (get body "id") (arguments_of body)))).
Proof.
  intros Hinv.
  assert (Hnot : get body "method" <> JStr "notifications/initialized").
  { destruct Hinv as [-> _]. discriminate. }
  rewrite on_fault_trace. unfold arguments_of.
  destruct (ask_rag_cases c (get body "id") (get (get body "params") "arguments"))
    as [e Hrun | question mode key [reason] Hr Hk Hp Hrun
        | question mode key Hr Hk Hp Hrun];
    rewrite Hrun; simpl.
  - apply LogError; auto.
  - now apply LogDeclined.
  - pose proof (delegate_shape c (get body "id") question mode) as Hshape.
    inversion Hshape as [e Hthrown Hd | e Hd | text Hd]; simpl.
    + now apply LogPaidFault.
    + now apply LogBackendFault.
    + now apply LogAnswered.
Qed.

Lemma unknown_tool_logs (c : collaborators) (body : value) (name : value) :
  get body "method" <> JStr "notifications/initialized" ->
  gateway_run c body
    (trace (on_fault (get body "id") (unknown_tool (get body "id") name))).
Proof.
  intro Hnot. unfold unknown_tool.
  destruct (to_string name) as [n | e]; simpl; apply LogError; auto.
Qed.

Lemma unknown_method_logs (c : collaborators) (body : value) (method : value) :
  get body "method" <> JStr "notifications/initialized" ->
  gateway_run c body
    (trace (on_fault (get body "id") (unknown_method (get body "id") method))).
Proof.
  intro Hnot. unfold unknown_method.
  destruct (to_string method) as [n | e]; simpl; apply LogError; auto.
Qed.

Lemma post_root_logs (c : collaborators) (body : value) :
  nullish body = false ->
  gateway_run c body (trace (post_root c body)) /\
  outcome (post_root c body) = Ok tt.
Proof.
  intro Hb. split.
  2: { rewrite (post_root_not_nullish c body Hb). apply on_fault_outcome. }
  destruct (strict_eq_str (get body "method") "initialize") eqn:H1.
  { apply strict_eq_str_true in H1. rewrite (post_root_initialize c body H1).
    apply LogResult; [rewrite H1 | ]; discriminate. }
  destruct (strict_eq_str (get body "method") "notifications/initialized") eqn:H2.
  { apply strict_eq_str_true in H2. rewrite (post_root_initialized c body H2).
    now apply LogAcknowledged. }
  pose proof (strict_eq_str_false _ _ H2) as Hnot.
  destruct (strict_eq_str (get body "method") "tools/list") eqn:H3.
  { apply strict_eq_str_true in H3. rewrite (post_root_tools_list c body H3).
    apply LogResult; [exact Hnot | discriminate]. }
  destruct (strict_eq_str (get body "method") "tools/call") eqn:H4.
  2: { rewrite (post_root_other_method c body Hb H1 H2 H3 H4).
       now apply unknown_method_logs. }
  apply strict_eq_str_true in H4.
  destruct (nullish (get body "params")) eqn:Hp.
  { rewrite (post_root_tools_call_no_params c body H4 Hp). apply LogError; auto. }
  destruct (strict_eq_str (get (get body "params") "name") "ask_rag") eqn:Hn.
  2: { rewrite (post_root_tools_call_other c body H4 Hp Hn).
       now apply unknown_tool_logs. }
  apply strict_eq_str_true in Hn.
  rewrite (post_root_tools_call_ask_rag c body H4 Hn).
  apply ask_rag_logs. now split.
Qed.

Lemma gateway_run_one_response (c : collaborators) (body : value) (t : list event) :
  gateway_run c body t -> length (responses t) = 1%nat.
Proof. intro H. inversion H; reflexivity. Qed.

Lemma gateway_run_codes (c : collaborators) (body : value) (t : list event) :
  gateway_run c body t ->
  forall env,
    In (ResJson env) t ->
    get env "error" = JUndefined \/
    error_code env = JNum (-32601) \/
    error_code env = JNum (-32603).
Proof.
  intros H env Hin.
  inversion H as [Hm Ht | res Hm Hres Ht | code msg Hm Hc Ht
                  | price reason Hi Hp Ht | price msg Hi Hp Ht
                  | price payload msg Hi Hp Ht | price payload text Hi Hp Ht];
    subst t; in_cases Hin; injection Hin as <-;
    try (destruct Hc as [-> | ->]);
    first [ left; reflexivity
          | right; left; reflexivity
          | right; right; reflexivity ].
Qed.


Lemma gateway_run_id (c : collaborators) (body : value) (t : list event) :
  gateway_run c body t ->
  forall env, In (ResJson env) t ->
    get env "id" = get body "id" /\ get env "jsonrpc" = JStr "2.0".
Proof.
  intros H env Hin.
  inversion H; subst t; in_cases Hin; injection Hin as <-; split; reflexivity.
Qed.


(** C3 as the specification states it fails at a mode outside the table
    and at an empty question: with a payer that authorises, both calls are charged,
    reach the backend and are answered with a result envelope, not with an
    invalid-params error. *)
Lemma unlisted_mode_and_empty_question_reach_backend :
  post_root (paying (backend_answers sample_data)) unlisted_mode_call =
    ([CallRequirePayment PUndefined;
      CallFetch RAG_ASK_ENDPOINT
        (backend_payload (JStr "What is the answer?") (JStr "bogus"));
      ResJson (result_envelope (JNum 7)
                 (content_result (format_answer "What is the answer?" "qa" "42")))],
     Ok tt)
  /\
  post_root (paying (backend_answers sample_data)) empty_question_call =
    ([CallRequirePayment (PBigNumber (5 # 100));
      CallFetch RAG_ASK_ENDPOINT (backend_payload (JStr "") (JStr "auto"));
      ResJson (result_envelope (JNum 8)
                 (content_result (format_answer "" "qa" "42")))],
     Ok tt).
Proof. split; reflexivity. Qed.

(** C3, amended.  On an [ask_rag] call whose [arguments] are present, the
    mode defaults to "auto" when absent and neither the question nor the
    mode is checked: the handler asks for payment of [prices[mode]]
    whatever the mode is.  That price is the table's amount for qa,
    summary and auto; for any other key it is the member of that name
    inherited from [Object.prototype] when there is one ("constructor",
    "toString", ...), and [undefined] otherwise.  Once the payment is
    authorised the backend is called with the question and mode as given.
    No reply carries the invalid-params code, exactly one response is sent
    and the handler returns normally. *)
Theorem arguments_pass_unvalidated
    (c : collaborators) (body question mode : value) (key : string) :
  invokes_ask_rag body ->
  resolve_arguments (arguments_of body) = Ok (question, mode) ->
  to_string mode = Ok key ->
  let t := trace (post_root c body) in
  (get (arguments_of body) "mode" = JUndefined -> mode = JStr "auto") /\
  (exists rest, t = CallRequirePayment (prices_at key) :: rest) /\
  (forall amount, assoc prices key = Some amount ->
                  prices_at key = PBigNumber amount) /\
  (~ In key ["qa"; "summary"; "auto"] ->
   (In key object_prototype_keys -> prices_at key = PInherited key) /\
   (~ In key object_prototype_keys -> prices_at key = PUndefined)) /\
  (forall q,
      requirePayment c (prices_at key) = Ok tt ->
      to_string question = Ok q ->
      exists payload rest,
        t = CallRequirePayment (prices_at key)
              :: CallFetch RAG_ASK_ENDPOINT payload :: rest /\
        get payload "question" = question /\
        get payload "mode" = mode) /\
  (forall id msg, ~ In (ResJson (error_envelope id (-32602) msg)) t) /\
  (forall env, In (ResJson env) t -> error_code env <> JNum (-32602)) /\
  length (responses t) = 1%nat /\
  outcome (post_root c body) = Ok tt.
Proof.
  intros Hinv Hr Hk t.
  assert (Hb : nullish body = false).
  { destruct Hinv as [Hm _]. exact (get_string_not_nullish _ _ _ Hm). }
  destruct (post_root_logs c body Hb) as [Hlog Hout]. fold t in Hlog.
  assert (Hcodes : forall env, In (ResJson env) t -> error_code env <> JNum (-32602)).
  { intros env Hin Hcode.
    destruct (gateway_run_codes c body t Hlog env Hin) as [H | [H | H]].
    - unfold error_code in Hcode. rewrite H in Hcode. discriminate Hcode.
    - rewrite H in Hcode. vm_compute in Hcode. discriminate Hcode.
    - rewrite H in Hcode. vm_compute in Hcode. discriminate Hcode. }
  split; [ | split; [ | split; [ | split; [ | split; [ | split; [ | split; [ | split]]]]]]].
  - intro Habsent. unfold resolve_arguments in Hr.
    destruct (destructurable _ _ _); [ | discriminate].
    rewrite Habsent in Hr. now injection Hr as _ <-.
  - subst t. destruct Hinv as [Hm Hn].
    rewrite (post_root_tools_call_ask_rag c body Hm Hn).
    destruct (requirePayment c (prices_at key)) as [[] | e] eqn:Hp.
    + rewrite (ask_rag_paid c _ _ question mode key Hr Hk Hp), on_fault_paid.
      eexists; reflexivity.
    + rewrite (ask_rag_declined c _ _ question mode key e Hr Hk Hp).
      eexists; reflexivity.
  - intros amount Hsome. unfold prices_at. now rewrite Hsome.
  - apply prices_at_unlisted.
  - intros q Hp Hq. subst t. destruct Hinv as [Hm Hn].
    rewrite (post_root_tools_call_ask_rag c body Hm Hn).
    rewrite (ask_rag_paid c _ _ question mode key Hr Hk Hp), on_fault_paid.
    rewrite on_fault_trace.
    destruct (delegate_fetches c (get body "id") question mode q Hq) as [rest ->].
    eexists _, _. repeat split.
  - intros id msg Hin. apply (Hcodes _ Hin). reflexivity.
  - exact Hcodes.
  - exact (gateway_run_one_response c body t Hlog).
  - exact Hout.
Qed.

Lemma arguments_pass_unvalidated_witness :
  exists payload rest,
    trace (post_root (paying (backend_answers sample_data)) unlisted_mode_call) =
      CallRequirePayment (prices_at "bogus")
        :: CallFetch RAG_ASK_ENDPOINT payload :: rest /\
    get payload "question" = JStr "What is the answer?" /\
    get payload "mode" = JStr "bogus".
Proof.
  apply (proj1 (proj2 (proj2 (proj2 (proj2
           (arguments_pass_unvalidated (paying (backend_answers sample_data))
              unlisted_mode_call (JStr "What is the answer?") (JStr "bogus") "bogus"
              (conj eq_refl eq_refl) eq_refl eq_refl)))))
           "What is the answer?");
    reflexivity.
Defined.

Lemma delegate_backend_status
    (c : collaborators) (id question mode : value) q (r : http_response) :
  to_string question = Ok q ->
  fetch c RAG_ASK_ENDPOINT (backend_payload question mode) = Ok r ->
  ok r = false ->
  delegate c id question mode =
    ([CallFetch RAG_ASK_ENDPOINT (backend_payload question mode)],
     Thrown (Error ("RAG backend returned " ++ number_to_string (status r)))).
Proof.
  intros Hq Hf Hok. unfold delegate, do_fetch. rewrite Hq. simpl.
  rewrite Hf. simpl. now rewrite Hok.
Qed.

(** C4 as the specification states it fails: a declined payment and a backend that
    answers 500 after an authorised payment give envelopes with the same
    numeric code. *)
Lemma payment_and_backend_failures_share_code :
  responses (trace (post_root (declining "insufficient funds" (backend_status 500))
                      sample_call))
    = [ResJson (error_envelope (JNum 7) (-32603) "Payment failed: insufficient funds")]
  /\
  responses (trace (post_root (paying (backend_status 500)) sample_call))
    = [ResJson (error_envelope (JNum 7) (-32603) "RAG backend returned 500")]
  /\
  error_code (error_envelope (JNum 7) (-32603) "Payment failed: insufficient funds")
    = error_code (error_envelope (JNum 7) (-32603) "RAG backend returned 500").
Proof. repeat split. Qed.

(** C4, amended.  A declined payment, and a backend status outside 2xx
    after an authorised payment, are both answered with code -32603; what
    tells them apart is the message, "Payment failed: " and the reason in
    the first case, "RAG backend returned " and the status in the second,
    and these two texts are never equal.  The declined call issues no
    [fetch]; the failed delegation does not repeat the payment request. *)
Theorem payment_and_backend_failures_differ_by_message
    (c1 c2 : collaborators) (body question mode : value) (key q reason : string)
    (r : http_response) :
  invokes_ask_rag body ->
  resolve_arguments (arguments_of body) = Ok (question, mode) ->
  to_string mode = Ok key ->
  to_string question = Ok q ->
  requirePayment c1 (prices_at key) = Thrown (Error reason) ->
  requirePayment c2 (prices_at key) = Ok tt ->
  fetch c2 RAG_ASK_ENDPOINT (backend_payload question mode) = Ok r ->
  ok r = false ->
  let denied := error_envelope (get body "id") (-32603) ("Payment failed: " ++ reason) in
  let failed := error_envelope (get body "id") (-32603)
                  ("RAG backend returned " ++ number_to_string (status r)) in
  trace (post_root c1 body) = [CallRequirePayment (prices_at key); ResJson denied] /\
  trace (post_root c2 body) =
    [CallRequirePayment (prices_at key);
     CallFetch RAG_ASK_ENDPOINT (backend_payload question mode);
     ResJson failed] /\
  error_code denied = error_code failed /\
  error_message denied <> error_message failed.
Proof.
  intros [Hm Hn] Hr Hk Hq Hp1 Hp2 Hf Hok denied failed. unfold arguments_of in Hr.
  rewrite !(post_root_tools_call_ask_rag _ body Hm Hn).
  rewrite (ask_rag_declined c1 _ _ question mode key _ Hr Hk Hp1).
  rewrite (ask_rag_paid c2 _ _ question mode key Hr Hk Hp2).
  rewrite (delegate_backend_status c2 _ question mode q r Hq Hf Hok).
  repeat split. simpl. intro H. discriminate H.
Qed.

Lemma payment_and_backend_failures_differ_by_message_witness :
  trace (post_root (declining "insufficient funds" (backend_status 500)) sample_call)
    = [CallRequirePayment (PBigNumber (1 # 100));
       ResJson (error_envelope (JNum 7) (-32603) "Payment failed: insufficient funds")]
  /\
  trace (post_root (paying (backend_status 500)) sample_call)
    = [CallRequirePayment (PBigNumber (1 # 100));
       CallFetch RAG_ASK_ENDPOINT
         (backend_payload (JStr "What is the answer?") (JStr "qa"));
       ResJson (error_envelope (JNum 7) (-32603) "RAG backend returned 500")]
  /\
  error_code (error_envelope (JNum 7) (-32603) "Payment failed: insufficient funds")
    = error_code (error_envelope (JNum 7) (-32603) "RAG backend returned 500")
  /\
  error_message (error_envelope (JNum 7) (-32603) "Payment failed: insufficient funds")
    <> error_message (error_envelope (JNum 7) (-32603) "RAG backend returned 500").
Proof.
  apply (payment_and_backend_failures_differ_by_message
           (declining "insufficient funds" (backend_status 500))
           (paying (backend_status 500))
           sample_call (JStr "What is the answer?") (JStr "qa")
           "qa" "What is the answer?" "insufficient funds"
           (Response 500 (Ok JNull)));
    try reflexivity.
  split; reflexivity.
Defined.

Lemma gateway_run_response (c : collaborators) (body : value) (t : list event) :
  gateway_run c body t ->
  get body "method" <> JStr "notifications/initialized" ->
  exists env,
    responses t = [ResJson env] /\
    get env "id" = get body "id" /\
    envelope_for (get body "id") env.
Proof.
  intros H Hnot.
  inversion H; subst t; try contradiction;
    eexists; (split; [reflexivity | split; [reflexivity | ]]);
    unfold envelope_for; eauto.
Qed.

Lemma gateway_run_declined (c : collaborators) (body : value) (t : list event) :
  gateway_run c body t ->
  forall price reason,
    In (CallRequirePayment price) t ->
    requirePayment c price = Thrown (Error reason) ->
    responses t = [ResJson (error_envelope (get body "id") (-32603)
                              ("Payment failed: " ++ reason))].
Proof.
  intros H price reason Hin Hthrows.
  inversion H; subst t; in_cases Hin; injection Hin as <-; try congruence.
  replace reason with reason0 by congruence. reflexivity.
Qed.

Lemma responses_app (t u : list event) :
  responses (t ++ u) = (responses t ++ responses u)%list.
Proof. apply filter_app. Qed.

(** The log of a request with a body, fault by fault. *)
Lemma dispatcher_log (c : collaborators) (body : value) :
  nullish body = false ->
  let t := trace (post_root c body) in
  outcome (post_root c body) = Ok tt /\
  length (responses t) = 1%nat /\
  (forall e,
      outcome (dispatch c body) = Thrown e ->
      t = (trace (dispatch c body)
             ++ [ResJson (error_envelope (get body "id") (-32603) (message e))])%list
      /\ responses (trace (dispatch c body)) = []) /\
  (forall price reason,
      In (CallRequirePayment price) t ->
      requirePayment c price = Thrown (Error reason) ->
      responses t = [ResJson (error_envelope (get body "id") (-32603)
                                ("Payment failed: " ++ reason))]) /\
  (forall env, In (ResJson env) t -> envelope_for (get body "id") env).
Proof.
  intros Hb t.
  destruct (post_root_logs c body Hb) as [Hlog Hout]. fold t in Hlog.
  pose proof (gateway_run_one_response c body t Hlog) as Hone.
  split; [exact Hout | split; [exact Hone | split; [ | split]]].
  - intros e He.
    assert (Ht : t = (trace (dispatch c body)
                        ++ [ResJson (error_envelope (get body "id") (-32603)
                                       (message e))])%list).
    { subst t. rewrite (post_root_not_nullish c body Hb), on_fault_trace.
      now rewrite He. }
    split; [exact Ht | ].
    rewrite Ht, responses_app, length_app in Hone. simpl in Hone.
    destruct (responses (trace (dispatch c body))); [reflexivity | simpl in Hone; lia].
  - exact (gateway_run_declined c body t Hlog).
  - intros env Hin.
    inversion Hlog as [Hm Ht | res Hm Hres Ht | code msg Hm Hc Ht
                       | price reason Hi Hp Ht | price msg Hi Hp Ht
                       | price payload msg Hi Hp Ht | price payload text Hi Hp Ht];
      rewrite <- Ht in Hin; in_cases Hin; injection Hin as <-;
      unfold envelope_for; eauto.
Qed.

Lemma gateway_run_well_formed (c : collaborators) (body : value) (t : list event) :
  gateway_run c body t ->
  forall env, In (ResJson env) t -> well_formed_reply (get body "id") env.
Proof.
  intros H env Hin. apply envelope_well_formed.
  inversion H as [Hm Ht | res Hm Hres Ht | code msg Hm Hc Ht
                  | price reason Hi Hp Ht | price msg Hi Hp Ht
                  | price payload msg Hi Hp Ht | price payload text Hi Hp Ht];
    subst t; in_cases Hin; injection Hin as <-;
    first [ right; eexists _, _; reflexivity
          | left; eexists; split; [ | reflexivity]; first [exact Hres | discriminate] ].
Qed.

(** C5 as the specification states it fails when the POST has no parsed
    body: with [req.body] [undefined] the destructuring throws, the
    [catch] block throws again on [req.body.id], nothing is sent and the
    handler's promise rejects. *)
Lemma request_without_body_goes_unanswered :
  responses (trace (post_root (paying (backend_answers sample_data)) JUndefined))
    = [] /\
  post_root (paying (backend_answers sample_data)) JUndefined =
    ([], Thrown (Error "Cannot read properties of undefined (reading 'id')")).
Proof. split; reflexivity. Qed.

(** C5, amended.  Whatever the collaborators do, the handler, given a
    body that is not [undefined] or [null], returns normally and sends
    exactly one response.  A fault that leaves the outer [try] is
    answered, after everything the [try] logged and with nothing sent
    before, by an error reply with the request's [id], code -32603 and the
    fault's message; a fault of the payment collaborator is answered by
    an error reply with the request's [id], code -32603 and "Payment
    failed: " and the reason; and every reply sent names the request's
    [id] and holds a result or an error, never both. *)
Theorem dispatcher_answers_every_request (c : collaborators) (body : value) :
  nullish body = false ->
  let t := trace (post_root c body) in
  outcome (post_root c body) = Ok tt /\
  length (responses t) = 1%nat /\
  (forall e,
      outcome (dispatch c body) = Thrown e ->
      exists env,
        t = (trace (dispatch c body) ++ [ResJson env])%list /\
        is_error_reply (get body "id") (-32603) (message e) env /\
        responses (trace (dispatch c body)) = []) /\
  (forall price reason,
      In (CallRequirePayment price) t ->
      requirePayment c price = Thrown (Error reason) ->
      exists env,
        responses t = [ResJson env] /\
        is_error_reply (get body "id") (-32603) ("Payment failed: " ++ reason) env) /\
  (forall env, In (ResJson env) t -> well_formed_reply (get body "id") env).
Proof.
  intros Hb t.
  destruct (dispatcher_log c body Hb) as (Hout & Hone & Hfault & Hpay & _).
  fold t in Hone, Hfault, Hpay.
  split; [exact Hout | split; [exact Hone | split; [ | split]]].
  - intros e He. destruct (Hfault e He) as [Ht Hnone].
    eexists. split; [exact Ht | split; [apply error_envelope_reply | exact Hnone]].
  - intros price reason Hin Hthrows.
    eexists. split; [exact (Hpay price reason Hin Hthrows) | apply error_envelope_reply].
  - apply (gateway_run_well_formed c body).
    exact (proj1 (post_root_logs c body Hb)).
Qed.

Lemma dispatcher_answers_every_request_witness :
  outcome (post_root (paying (backend_status 503)) sample_call) = Ok tt /\
  length (responses (trace (post_root (paying (backend_status 503)) sample_call)))
    = 1%nat /\
  exists env,
    trace (post_root (paying (backend_status 503)) sample_call) =
      (trace (dispatch (paying (backend_status 503)) sample_call)
         ++ [ResJson env])%list /\
    is_error_reply (JNum 7) (-32603) "RAG backend returned 503" env /\
    responses (trace (dispatch (paying (backend_status 503)) sample_call)) = [].
Proof.
  pose proof (dispatcher_answers_every_request
                (paying (backend_status 503)) sample_call eq_refl) as H.
  cbv zeta in H. destruct H as (Hout & Hone & Hfault & _).
  split; [exact Hout | split; [exact Hone | ]].
  exact (Hfault (Error "RAG backend returned 503") eq_refl).
Defined.

(** C6. For [initialize], [tools/list] and [tools/call], whatever the
    branch taken, the one response is an envelope, result or error, whose
    [id] is the [id] of the request; for [notifications/initialized] the
    handler ends the response with status 200 and no body, and returns
    normally. *)
Theorem response_id_echoes_request_id (c : collaborators) (body : value) :
  (In (get body "method") [JStr "initialize"; JStr "tools/list"; JStr "tools/call"] ->
   exists env,
     responses (trace (post_root c body)) = [ResJson env] /\
     get env "id" = get body "id" /\
     envelope_for (get body "id") env) /\
  (get body "method" = JStr "notifications/initialized" ->
   post_root c body = ([ResStatusEnd 200], Ok tt)).
Proof.
  split.
  - intro Hin.
    assert (Hb : nullish body = false).
    { in_cases Hin; symmetry in Hin; exact (get_string_not_nullish _ _ _ Hin). }
    apply (gateway_run_response c body).
    + exact (proj1 (post_root_logs c body Hb)).
    + intro Hm. rewrite Hm in Hin. in_cases Hin.
  - apply post_root_initialized.
Qed.

Lemma response_id_echoes_request_id_witness :
  (exists env,
     responses (trace (post_root (declining "insufficient funds"
                                    (backend_answers sample_data)) sample_call))
       = [ResJson env] /\
     get env "id" = JNum 7 /\
     envelope_for (JNum 7) env) /\
  post_root (paying (backend_answers sample_data)) initialized_notification
    = ([ResStatusEnd 200], Ok tt).
Proof.
  split.
  - apply (proj1 (response_id_echoes_request_id
                    (declining "insufficient funds" (backend_answers sample_data))
                    sample_call)).
    simpl. right. right. left. reflexivity.
  - apply (proj2 (response_id_echoes_request_id
                    (paying (backend_answers sample_data))
                    initialized_notification)).
    reflexivity.
Defined.

(** C7. [tools/list] is answered, whatever the payment collaborator
    would say and without asking it, by one reply for the request's [id]
    that holds no error and whose result has a [tools] array with exactly
    one descriptor, named ask_rag; the schema of that descriptor requires
    [question] only, types it as a string, and gives [mode] the
    enumeration auto, qa, summary with default "auto". *)
Theorem tools_list_advertises_ask_rag (c : collaborators) (body : value) :
  get body "method" = JStr "tools/list" ->
  exists env tool,
    post_root c body = ([ResJson env], Ok tt) /\
    payment_requests (trace (post_root c body)) = [] /\
    get env "jsonrpc" = JStr "2.0" /\
    get env "id" = get body "id" /\
    get env "error" = JUndefined /\
    get (get env "result") "tools" = JArr [tool] /\
    get tool "name" = JStr "ask_rag" /\
    get (get tool "inputSchema") "type" = JStr "object" /\
    get (get tool "inputSchema") "required" = JArr [JStr "question"] /\
    (let properties := get (get tool "inputSchema") "properties" in
     get (get properties "question") "type" = JStr "string" /\
     get (get properties "mode") "type" = JStr "string" /\
     get (get properties "mode") "enum" = JArr [JStr "auto"; JStr "qa"; JStr "summary"] /\
     get (get properties "mode") "default" = JStr "auto").
Proof.
  intro Hm. rewrite (post_root_tools_list c body Hm).
  eexists _, _. repeat split.
Qed.

Lemma tools_list_advertises_ask_rag_witness :
  exists env tool,
    post_root (declining "no authorisation" (backend_status 500)) tools_list_call =
      ([ResJson env], Ok tt) /\
    get env "id" = JStr "list-1" /\
    get (get env "result") "tools" = JArr [tool] /\
    get tool "name" = JStr "ask_rag".
Proof.
  destruct (tools_list_advertises_ask_rag
              (declining "no authorisation" (backend_status 500))
              tools_list_call eq_refl)
    as (env & tool & Hsent & _ & _ & Hid & _ & Htools & Hname & _).
  exists env, tool. repeat split; assumption.
Defined.

Lemma contains_middle (before s after : string) : contains (before ++ s ++ after) s.
Proof. now exists before, after. Qed.

Lemma append_assoc (a b d : string) : (a ++ b) ++ d = a ++ b ++ d.
Proof. induction a as [ | ch a IH]; simpl; [reflexivity | now rewrite IH]. Qed.

Lemma append_empty_r (a : string) : a ++ "" = a.
Proof. induction a as [ | ch a IH]; simpl; [reflexivity | now rewrite IH]. Qed.

Lemma format_answer_contains (q m a : string) :
  contains (format_answer q m a) q /\
  contains (format_answer q m a) m /\
  contains (format_answer q m a) a.
Proof.
  unfold format_answer. split; [ | split].
  - apply contains_middle.
  - exists ("Question: " ++ q ++ nl ++ "Mode: "), (nl ++ nl ++ "Answer:" ++ nl ++ a).
    now rewrite !append_assoc.
  - exists ("Question: " ++ q ++ nl ++ "Mode: " ++ m ++ nl ++ nl ++ "Answer:" ++ nl), "".
    now rewrite !append_assoc, append_empty_r.
Qed.

Lemma delegate_answered
    (c : collaborators) (id question mode data : value) (q m a : string)
    (r : http_response) :
  question = JStr q ->
  fetch c RAG_ASK_ENDPOINT (backend_payload question mode) = Ok r ->
  ok r = true ->
  json r = Ok data ->
  get data "mode" = JStr m ->
  get data "answer" = JStr a ->
  delegate c id question mode =
    ([CallFetch RAG_ASK_ENDPOINT (backend_payload question mode);
      ResJson (result_envelope id (content_result (format_answer q m a)))],
     Ok tt).
Proof.
  intros -> Hf Hok Hj Hdm Hda. unfold delegate, do_fetch. simpl.
  rewrite Hf. simpl. rewrite Hok. simpl.
  rewrite Hj. simpl.
  rewrite !(member_not_nullish data _ (get_string_not_nullish _ _ _ Hdm)).
  simpl. rewrite Hdm. simpl. rewrite Hda. reflexivity.
Qed.

(** C8. When the payment is authorised and the backend answers 2xx with
    a payload whose [mode] and [answer] are strings, an [ask_rag] call with
    a string question is answered by one reply for the request's [id]
    that holds no error and whose result has a [content] array with one
    block of type text; the text of that block contains the question, the
    backend's mode and the answer as they are. *)
Theorem answer_text_carries_question_mode_answer
    (c : collaborators) (body question mode data : value) (key q m a : string)
    (r : http_response) :
  invokes_ask_rag body ->
  resolve_arguments (arguments_of body) = Ok (question, mode) ->
  to_string mode = Ok key ->
  requirePayment c (prices_at key) = Ok tt ->
  question = JStr q ->
  fetch c RAG_ASK_ENDPOINT (backend_payload question mode) = Ok r ->
  ok r = true ->
  json r = Ok data ->
  get data "mode" = JStr m ->
  get data "answer" = JStr a ->
  exists env text,
    responses (trace (post_root c body)) = [ResJson env] /\
    get env "jsonrpc" = JStr "2.0" /\
    get env "id" = get body "id" /\
    get env "error" = JUndefined /\
    get (get env "result") "content" =
      JArr [ JObj [ ("type", JStr "text"); ("text", JStr text) ] ] /\
    contains text q /\ contains text m /\ contains text a.
Proof.
  intros [Hm Hn] Hr Hk Hp Hq Hf Hok Hj Hdm Hda. unfold arguments_of in Hr.
  exists (result_envelope (get body "id") (content_result (format_answer q m a))),
         (format_answer q m a).
  split.
  - rewrite (post_root_tools_call_ask_rag c body Hm Hn).
    rewrite (ask_rag_paid c _ _ question mode key Hr Hk Hp).
    rewrite (delegate_answered c _ question mode data q m a r Hq Hf Hok Hj Hdm Hda).
    reflexivity.
  - repeat split; apply format_answer_contains.
Qed.

Lemma answer_text_carries_question_mode_answer_witness :
  exists env text,
    responses (trace (post_root (paying (backend_answers sample_data)) sample_call)) =
      [ResJson env] /\
    get env "jsonrpc" = JStr "2.0" /\
    get env "id" = JNum 7 /\
    get env "error" = JUndefined /\
    get (get env "result") "content" =
      JArr [ JObj [ ("type", JStr "text"); ("text", JStr text) ] ] /\
    contains text "What is the answer?" /\ contains text "qa" /\ contains text "42".
Proof.
  apply (answer_text_carries_question_mode_answer
           (paying (backend_answers sample_data)) sample_call
           (JStr "What is the answer?") (JStr "qa") sample_data
           "qa" "What is the answer?" "qa" "42" (Response 200 (Ok sample_data)));
    try reflexivity.
  split; reflexivity.
Defined.

Lemma on_fault_unknown_tool (id name : value) (n : string) :
  to_string name = Ok n ->
  on_fault id (unknown_tool id name) =
    ([ResJson (error_envelope id (-32601) ("Unknown tool: " ++ n))], Ok tt).
Proof. unfold unknown_tool. now intros ->. Qed.

Lemma on_fault_unknown_method (id method : value) (m : string) :
  to_string method = Ok m ->
  on_fault id (unknown_method id method) =
    ([ResJson (error_envelope id (-32601) ("Unknown method: " ++ m))], Ok tt).
Proof. unfold unknown_method. now intros ->. Qed.

Lemma not_known_method (v : value) (lit : string) :
  In lit known_methods ->
  (forall s, In s known_methods -> v <> JStr s) ->
  strict_eq_str v lit = false.
Proof.
  intros Hin Hnone. destruct (strict_eq_str v lit) eqn:H; [ | reflexivity].
  apply strict_eq_str_true in H. now destruct (Hnone lit Hin).
Qed.

(** C9 as the specification states it fails at a tool name and at a
    method that have no text form: the message cannot be built, the outer
    [catch] answers, and the code of the reply is -32603, not -32601. *)
Lemma name_without_text_form_is_internal_error :
  post_root (paying (backend_answers sample_data)) unprintable_name_call =
    ([ResJson (error_envelope (JNum 3) (-32603)
                 "Cannot convert object to primitive value")], Ok tt) /\
  post_root (paying (backend_answers sample_data)) unprintable_method_call =
    ([ResJson (error_envelope (JNum 4) (-32603)
                 "Cannot convert object to primitive value")], Ok tt) /\
  error_code (error_envelope (JNum 3) (-32603)
                "Cannot convert object to primitive value") = JNum (-32603) /\
  JNum (-32603) <> JNum (-32601).
Proof.
  repeat split. intro H. vm_compute in H. discriminate H.
Qed.

(** C9, amended.  A [tools/call] whose [params] name a tool other than
    [ask_rag], and a request whose method is none of the four the
    dispatcher knows, are each answered, when that name or method
    converts to text (as every string, number, boolean and [null] does,
    and an absent one), by one error reply for the request's [id] with
    code -32601 and the message "Unknown tool: ..." or "Unknown method:
    ...", and nothing else is logged: no payment request, no backend call.
    [initialize] is answered, whatever the collaborators and whatever else
    the request holds, by one reply for the request's [id] whose result
    is the same fixed descriptor: protocol version 2024-11-05, the
    capability [tools], and the server's name and version. *)
Theorem unknown_names_and_initialize (c : collaborators) (body : value) :
  (forall n,
      get body "method" = JStr "tools/call" ->
      nullish (get body "params") = false ->
      get (get body "params") "name" <> JStr "ask_rag" ->
      to_string (get (get body "params") "name") = Ok n ->
      exists env,
        post_root c body = ([ResJson env], Ok tt) /\
        is_error_reply (get body "id") (-32601) ("Unknown tool: " ++ n) env) /\
  (forall m,
      nullish body = false ->
      (forall s, In s known_methods -> get body "method" <> JStr s) ->
      to_string (get body "method") = Ok m ->
      exists env,
        post_root c body = ([ResJson env], Ok tt) /\
        is_error_reply (get body "id") (-32601) ("Unknown method: " ++ m) env) /\
  (get body "method" = JStr "initialize" ->
   exists env,
     post_root c body = ([ResJson env], Ok tt) /\
     get env "jsonrpc" = JStr "2.0" /\
     get env "id" = get body "id" /\
     get env "error" = JUndefined /\
     get (get env "result") "protocolVersion" = JStr "2024-11-05" /\
     get (get (get env "result") "capabilities") "tools" = JObj [] /\
     get (get (get env "result") "serverInfo") "name" = JStr "interview-rag-server" /\
     get (get (get env "result") "serverInfo") "version" = JStr "1.0.0" /\
     (forall c' body',
         get body' "method" = JStr "initialize" ->
         get body' "id" = get body "id" ->
         post_root c' body' = post_root c body)).
Proof.
  split; [ | split].
  - intros n Hm Hp Hname Hn.
    rewrite (post_root_tools_call_other c body Hm Hp).
    + rewrite (on_fault_unknown_tool _ _ n Hn).
      eexists. split; [reflexivity | apply error_envelope_reply].
    + destruct (strict_eq_str _ "ask_rag") eqn:H; [ | reflexivity].
      apply strict_eq_str_true in H. contradiction.
  - intros m Hb Hnone Hmeth.
    rewrite (post_root_other_method c body Hb).
    + rewrite (on_fault_unknown_method _ _ m Hmeth).
      eexists. split; [reflexivity | apply error_envelope_reply].
    + apply not_known_method; [simpl; auto | exact Hnone].
    + apply not_known_method; [simpl; auto | exact Hnone].
    + apply not_known_method; [simpl; auto | exact Hnone].
    + apply not_known_method; [simpl; auto 6 | exact Hnone].
  - intro Hm. rewrite (post_root_initialize c body Hm).
    eexists. repeat split.
    intros c' body' Hm' Hid. rewrite (post_root_initialize c' body' Hm').
    now rewrite Hid.
Qed.

Lemma unknown_names_and_initialize_witness :
  (exists env,
      post_root (paying (backend_answers sample_data)) unknown_tool_call =
        ([ResJson env], Ok tt) /\
      is_error_reply (JNum 3) (-32601) "Unknown tool: delete_everything" env) /\
  (exists env,
      post_root (paying (backend_answers sample_data)) unknown_method_call =
        ([ResJson env], Ok tt) /\
      is_error_reply (JNum 4) (-32601) "Unknown method: resources/list" env) /\
  (exists env,
      post_root (paying (backend_answers sample_data)) initialize_call =
        ([ResJson env], Ok tt) /\
      get (get env "result") "protocolVersion" = JStr "2024-11-05").
Proof.
  split; [ | split].
  - apply (proj1 (unknown_names_and_initialize
                    (paying (backend_answers sample_data)) unknown_tool_call)
             "delete_everything");
      try reflexivity.
    discriminate.
  - apply (proj1 (proj2 (unknown_names_and_initialize
                           (paying (backend_answers sample_data))
                           unknown_method_call))
             "resources/list");
      try reflexivity.
    intros s Hin. in_cases Hin; subst s; discriminate.
  - destruct (proj2 (proj2 (unknown_names_and_initialize
                              (paying (backend_answers sample_data))
                              initialize_call))
                eq_refl)
      as (env & Hsent & _ & _ & _ & Hversion & _).
    exists env. split; assumption.
Defined.

(** C10. A [tools/call] without [params], and a call of [ask_rag] without
    [arguments], throw in the destructuring; the outer [catch] answers
    each with one error reply that holds the request's [id], the code
    -32603 and the TypeError's message, and nothing else is logged.  A
    [null] in their place is answered the same way, the message naming
    null instead of undefined. *)
Theorem missing_params_or_arguments_is_internal_error
    (c : collaborators) (body : value) (kind : string) :
  get body "method" = JStr "tools/call" ->
  ((get body "params" = JUndefined /\ kind = "undefined") \/
   (get body "params" = JNull /\ kind = "null") ->
   exists env,
     post_root c body = ([ResJson env], Ok tt) /\
     is_error_reply (get body "id") (-32603)
       ("Cannot destructure property 'name' of 'params' as it is " ++ kind ++ ".")
       env) /\
  (get (get body "params") "name" = JStr "ask_rag" ->
   (arguments_of body = JUndefined /\ kind = "undefined") \/
   (arguments_of body = JNull /\ kind = "null") ->
   exists env,
     post_root c body = ([ResJson env], Ok tt) /\
     is_error_reply (get body "id") (-32603)
       ("Cannot destructure property 'question' of 'args' as it is " ++ kind ++ ".")
       env).
Proof.
  intro Hm. split.
  - intro Hkind.
    assert (Hp : nullish (get body "params") = true /\
                 type_name (get body "params") = kind).
    { destruct Hkind as [[-> ->] | [-> ->]]; split; reflexivity. }
    destruct Hp as [Hp <-].
    rewrite (post_root_tools_call_no_params c body Hm Hp).
    eexists. split; [reflexivity | apply error_envelope_reply].
  - intros Hn Hkind. rewrite (post_root_tools_call_ask_rag c body Hm Hn).
    unfold arguments_of in *.
    rewrite (ask_rag_no_arguments c _ _
               (Error ("Cannot destructure property 'question' of 'args' as it is "
                         ++ kind ++ "."))).
    + eexists. split; [reflexivity | apply error_envelope_reply].
    + destruct Hkind as [[-> ->] | [-> ->]]; reflexivity.
Qed.

Lemma missing_params_or_arguments_is_internal_error_witness :
  (exists env,
      post_root (paying (backend_answers sample_data)) call_without_params =
        ([ResJson env], Ok tt) /\
      is_error_reply (JNum 5) (-32603)
        "Cannot destructure property 'name' of 'params' as it is undefined." env) /\
  (exists env,
      post_root (paying (backend_answers sample_data)) call_without_arguments =
        ([ResJson env], Ok tt) /\
      is_error_reply (JNum 6) (-32603)
        "Cannot destructure property 'question' of 'args' as it is undefined." env).
Proof.
  split.
  - apply (proj1 (missing_params_or_arguments_is_internal_error
                    (paying (backend_answers sample_data)) call_without_params
                    "undefined" eq_refl)).
    left. split; reflexivity.
  - apply (proj2 (missing_params_or_arguments_is_internal_error
                    (paying (backend_answers sample_data)) call_without_arguments
                    "undefined" eq_refl)).
    + reflexivity.
    + left. split; reflexivity.
Defined.

(* ================================================================== *)
(** ** Further properties of the handler *)

Lemma post_root_nullish (c : collaborators) (body : value) :
  nullish body = true ->
  post_root c body =
    ([], Thrown (Error ("Cannot read properties of " ++ type_name body
                          ++ " (reading 'id')"))).
Proof.
  intro Hb. unfold post_root, dispatch, destructurable, member.
  rewrite Hb. reflexivity.
Qed.

Lemma gateway_run_sorted (c : collaborators) (body : value) (t : list event) :
  gateway_run c body t ->
  t = (payment_requests t ++ backend_calls t ++ responses t)%list /\
  (length (payment_requests t) <= 1)%nat /\
  (length (backend_calls t) <= 1)%nat /\
  length (responses t) = 1%nat /\
  (backend_calls t <> [] -> payment_requests t <> []).
Proof.
  intro H. inversion H; simpl; repeat split; auto; congruence.
Qed.

(** X1. The log of a request is ordered: at most one payment request,
    then at most one backend call, then the one response, and nothing
    after it; a backend call is never there without the payment request. *)
Theorem log_is_payment_then_fetch_then_response
    (c : collaborators) (body : value) :
  nullish body = false ->
  let t := trace (post_root c body) in
  t = (payment_requests t ++ backend_calls t ++ responses t)%list /\
  (length (payment_requests t) <= 1)%nat /\
  (length (backend_calls t) <= 1)%nat /\
  length (responses t) = 1%nat /\
  (backend_calls t <> [] -> payment_requests t <> []).
Proof.
  intros Hb t. apply (gateway_run_sorted c body).
  exact (proj1 (post_root_logs c body Hb)).
Qed.

Lemma log_is_payment_then_fetch_then_response_witness :
  trace (post_root (paying (backend_status 404)) sample_call) =
    (payment_requests (trace (post_root (paying (backend_status 404)) sample_call))
     ++ backend_calls (trace (post_root (paying (backend_status 404)) sample_call))
     ++ responses (trace (post_root (paying (backend_status 404)) sample_call)))%list.
Proof.
  exact (proj1 (log_is_payment_then_fetch_then_response
                  (paying (backend_status 404)) sample_call eq_refl)).
Defined.

Lemma invokes_ask_rag_dec (body : value) :
  invokes_ask_rag body <->
  strict_eq_str (get body "method") "tools/call" = true /\
  strict_eq_str (get (get body "params") "name") "ask_rag" = true.
Proof.
  unfold invokes_ask_rag. now rewrite !strict_eq_str_true.
Qed.

(** X2. Only [ask_rag] reaches the collaborators: a request that is not a
    [tools/call] of [ask_rag] is handled the same way whatever the payment
    collaborator and the backend would do, with no payment request and no
    backend call. *)
Theorem only_ask_rag_reaches_collaborators
    (c c' : collaborators) (body : value) :
  ~ invokes_ask_rag body ->
  post_root c body = post_root c' body /\
  payment_requests (trace (post_root c body)) = [] /\
  backend_calls (trace (post_root c body)) = [].
Proof.
  intro Hnot.
  destruct (nullish body) eqn:Hb.
  { rewrite !(post_root_nullish _ body Hb). repeat split. }
  destruct (strict_eq_str (get body "method") "initialize") eqn:H1.
  { apply strict_eq_str_true in H1.
    rewrite !(post_root_initialize _ body H1). repeat split. }
  destruct (strict_eq_str (get body "method") "notifications/initialized") eqn:H2.
  { apply strict_eq_str_true in H2.
    rewrite !(post_root_initialized _ body H2). repeat split. }
  destruct (strict_eq_str (get body "method") "tools/list") eqn:H3.
  { apply strict_eq_str_true in H3.
    rewrite !(post_root_tools_list _ body H3). repeat split. }
  destruct (strict_eq_str (get body "method") "tools/call") eqn:H4.
  2: { rewrite !(post_root_other_method _ body Hb H1 H2 H3 H4).
       unfold unknown_method.
       destruct (to_string (get body "method")); repeat split. }
  pose proof H4 as H4'. apply strict_eq_str_true in H4.
  destruct (nullish (get body "params")) eqn:Hp.
  { rewrite !(post_root_tools_call_no_params _ body H4 Hp). repeat split. }
  destruct (strict_eq_str (get (get body "params") "name") "ask_rag") eqn:Hn.
  { exfalso. apply Hnot. apply invokes_ask_rag_dec. now split. }
  rewrite !(post_root_tools_call_other _ body H4 Hp Hn).
  unfold unknown_tool.
  destruct (to_string (get (get body "params") "name")); repeat split.
Qed.

Lemma only_ask_rag_reaches_collaborators_witness :
  post_root (paying (backend_answers sample_data)) unknown_tool_call =
  post_root (declining "insufficient funds" (backend_status 500)) unknown_tool_call.
Proof.
  apply (only_ask_rag_reaches_collaborators
           (paying (backend_answers sample_data))
           (declining "insufficient funds" (backend_status 500))
           unknown_tool_call).
  intros [_ Hname]. discriminate Hname.
Defined.

(** X3. The handler reads [method], [params] and [id] of the body and
    nothing else: two bodies that agree on these three are handled alike,
    whatever their [jsonrpc] marker or other members. *)
Theorem handler_reads_method_params_id
    (c : collaborators) (body body' : value) :
  nullish body = false ->
  nullish body' = false ->
  get body "method" = get body' "method" ->
  get body "params" = get body' "params" ->
  get body "id" = get body' "id" ->
  post_root c body = post_root c body'.
Proof.
  intros Hb Hb' Hm Hp Hi.
  rewrite (post_root_not_nullish c body Hb), (post_root_not_nullish c body' Hb').
  unfold dispatch.
  rewrite (destructurable_not_nullish _ _ _ Hb),
          (destructurable_not_nullish _ _ _ Hb').
  now rewrite Hm, Hp, Hi.
Qed.

Lemma handler_reads_method_params_id_witness :
  post_root (paying (backend_answers sample_data)) sample_call =
  post_root (paying (backend_answers sample_data))
    (JObj [ ("id", JNum 7); ("jsonrpc", JStr "1.0"); ("extra", JBool true);
            ("params", get sample_call "params");
            ("method", JStr "tools/call") ]).
Proof.
  apply (handler_reads_method_params_id
           (paying (backend_answers sample_data)) sample_call
           (JObj [ ("id", JNum 7); ("jsonrpc", JStr "1.0"); ("extra", JBool true);
                   ("params", get sample_call "params");
                   ("method", JStr "tools/call") ]));
    reflexivity.
Defined.

(** X4. With [req.body] [undefined] or [null] the handler sends nothing:
    the destructuring throws, the [catch] block throws again on
    [req.body.id], and the handler's promise rejects with that TypeError;
    no collaborator is called. *)
Theorem body_less_request_escapes (c : collaborators) (body : value) :
  nullish body = true ->
  trace (post_root c body) = [] /\
  outcome (post_root c body) =
    Thrown (Error ("Cannot read properties of " ++ type_name body
                     ++ " (reading 'id')")).
Proof.
  intro Hb. rewrite (post_root_nullish c body Hb). now split.
Qed.

Lemma body_less_request_escapes_witness :
  trace (post_root (paying (backend_answers sample_data)) JUndefined) = [] /\
  outcome (post_root (paying (backend_answers sample_data)) JUndefined) =
    Thrown (Error "Cannot read properties of undefined (reading 'id')").
Proof.
  exact (body_less_request_escapes
           (paying (backend_answers sample_data)) JUndefined eq_refl).
Defined.

(** *** The price table *)


(** X5. A mode whose key the table does not list is still sent to the
    payment gate, but never with an amount: [requirePayment] receives
    [undefined], or, for a key such as "toString" or "constructor", the
    member of that name inherited from [Object.prototype]. *)
Theorem unlisted_mode_is_quoted_no_amount
    (c : collaborators) (body question mode : value) (key : string) :
  invokes_ask_rag body ->
  resolve_arguments (arguments_of body) = Ok (question, mode) ->
  to_string mode = Ok key ->
  ~ In key ["qa"; "summary"; "auto"] ->
  exists price rest,
    trace (post_root c body) = CallRequirePayment price :: rest /\
    payment_requests rest = [] /\
    (forall amount, price <> PBigNumber amount) /\
    (In key object_prototype_keys -> price = PInherited key) /\
    (~ In key object_prototype_keys -> price = PUndefined).
Proof.
  intros [Hm Hn] Hr Hk Hnot. unfold arguments_of in Hr.
  exists (prices_at key).
  assert (Hprice : prices_at key =
                     if existsb (String.eqb key) object_prototype_keys
                     then PInherited key else PUndefined).
  { unfold prices_at. now rewrite (assoc_prices_none key Hnot). }
  assert (Hrest : exists rest,
             trace (post_root c body) = CallRequirePayment (prices_at key) :: rest /\
             payment_requests rest = []).
  { rewrite (post_root_tools_call_ask_rag c body Hm Hn).
    destruct (requirePayment c (prices_at key)) as [[] | e] eqn:Hp.
    - rewrite (ask_rag_paid c _ _ question mode key Hr Hk Hp), on_fault_paid.
      eexists. split; [reflexivity | apply delegate_no_payment].
    - rewrite (ask_rag_declined c _ _ question mode key e Hr Hk Hp).
      eexists. split; reflexivity. }
  destruct Hrest as (rest & Ht & Hnone). exists rest.
  split; [exact Ht | split; [exact Hnone | ]].
  rewrite Hprice.
  destruct (existsb (String.eqb key) object_prototype_keys) eqn:He.
  - split; [discriminate | split; [reflexivity | ]].
    intro Hout. exfalso. apply Hout.
    apply existsb_exists in He. destruct He as (k & Hin & Heq).
    apply String.eqb_eq in Heq. now subst k.
  - split; [discriminate | split; [ | reflexivity]].
    intro Hin. exfalso.
    assert (existsb (String.eqb key) object_prototype_keys = true).
    { apply existsb_exists. exists key. split; [exact Hin | apply String.eqb_refl]. }
    congruence.
Qed.

Lemma unlisted_mode_is_quoted_no_amount_witness :
  exists price rest,
    trace (post_root (paying (backend_answers sample_data))
             (call_ask_rag (JNum 9)
                (JObj [ ("question", JStr "Why?"); ("mode", JStr "toString") ])))
    = CallRequirePayment price :: rest /\
    payment_requests rest = [] /\
    (forall amount, price <> PBigNumber amount) /\
    (In "toString" object_prototype_keys -> price = PInherited "toString") /\
    (~ In "toString" object_prototype_keys -> price = PUndefined).
Proof.
  apply (unlisted_mode_is_quoted_no_amount
           (paying (backend_answers sample_data))
           (call_ask_rag (JNum 9)
              (JObj [ ("question", JStr "Why?"); ("mode", JStr "toString") ]))
           (JStr "Why?") (JStr "toString") "toString").
  - split; reflexivity.
  - reflexivity.
  - reflexivity.
  - intro Hin. in_cases Hin.
Defined.

(** X6. The advertised schema and the handler agree: the modes the
    [tools/list] schema enumerates are exactly the keys of the price table,
    every amount of the table lies between 0.01 and 0.05, and the default
    the schema declares for [mode] is the mode the handler resolves when
    the arguments carry none. *)
Theorem schema_matches_price_table_and_default :
  let mode_schema :=
    get (get (get ask_rag_descriptor "inputSchema") "properties") "mode" in
  exists enum,
    get mode_schema "enum" = JArr enum /\
    (forall m, In (JStr m) enum <-> exists amount, assoc prices m = Some amount) /\
    (forall m amount,
        assoc prices m = Some amount ->
        (1 # 100 <= amount)%Q /\ (amount <= 5 # 100)%Q) /\
    (forall args question mode,
        resolve_arguments args = Ok (question, mode) ->
        get args "mode" = JUndefined ->
        mode = get mode_schema "default").
Proof.
  intro mode_schema. eexists. split; [reflexivity | split; [ | split]].
  - intro m. split.
    + intro Hin. in_cases Hin; injection Hin as <-; eexists; reflexivity.
    + intros [amount H]. apply assoc_prices_some in H. simpl.
      destruct H as [[-> _] | [[-> _] | [-> _]]]; auto.
  - intros m amount H. apply assoc_prices_some in H.
    destruct H as [[_ ->] | [[_ ->] | [_ ->]]]; split; discriminate.
  - intros args question mode Hr Habsent. unfold resolve_arguments in Hr.
    destruct (destructurable _ _ _); [ | discriminate].
    rewrite Habsent in Hr. now injection Hr as _ <-.
Qed.

Lemma schema_matches_price_table_and_default_witness :
  JStr "auto" =
  get (get (get (get ask_rag_descriptor "inputSchema") "properties") "mode") "default".
Proof.
  destruct schema_matches_price_table_and_default as (enum & _ & _ & _ & Hdefault).
  exact (Hdefault (JObj [ ("question", JStr "Why?") ]) (JStr "Why?") (JStr "auto")
           eq_refl eq_refl).
Defined.

(** *** Conversion to text *)

Lemma to_string_array_cons (x : value) (rest : list value) :
  to_string (JArr (x :: rest)) =
    match element_text x with
    | Thrown e => Thrown e
    | Ok s =>
        match rest with
        | [] => Ok s
        | _ => match to_string (JArr rest) with
               | Thrown e => Thrown e
               | Ok r => Ok (s ++ "," ++ r)
               end
        end
    end.
Proof. destruct x; reflexivity. Qed.

Lemma converts_array (elems : list value) :
  Forall converts elems -> converts (JArr elems).
Proof.
  induction 1 as [ | x rest Hx Hrest IH].
  - unfold converts. simpl. now exists "".
  - unfold converts in *. rewrite to_string_array_cons.
    change (printable (JArr (x :: rest)))
      with (printable x && printable (JArr rest))%bool.
    assert (Helem : if printable x
                    then exists s, element_text x = Ok s
                    else element_text x =
                           Thrown (Error "Cannot convert object to primitive value")).
    { destruct x; try exact Hx; simpl; now exists "". }
    destruct (printable x); cbn [andb].
    + destruct Helem as [s ->].
      destruct rest as [ | y rest'].
      * simpl. now exists s.
      * destruct (printable (JArr (y :: rest'))).
        -- destruct IH as [r ->]. eexists; reflexivity.
        -- now rewrite IH.
    + now rewrite Helem.
Qed.

Lemma converts_all (v : value) : converts v.
Proof.
  revert v. fix IH 1. intros [ | | [ | ] | n | s | elems | fields].
  - unfold converts. simpl. eexists; reflexivity.
  - unfold converts. simpl. eexists; reflexivity.
  - unfold converts. simpl. eexists; reflexivity.
  - unfold converts. simpl. eexists; reflexivity.
  - unfold converts. simpl. eexists; reflexivity.
  - unfold converts. simpl. eexists; reflexivity.
  - apply converts_array.
    induction elems as [ | x rest IHrest]; constructor; [apply IH | exact IHrest].
  - unfold converts. simpl.
    destruct (has_own fields "toString"); simpl; [reflexivity | eexists; reflexivity].
Qed.

(** X7. Conversion to text, as the template literals and [prices[mode]]
    apply it, has one way to fail: it succeeds on every value but an object
    with an own [toString] key, or an array that holds one, and then it
    throws the TypeError "Cannot convert object to primitive value". *)
Theorem to_string_fails_only_on_shadowed_toString (v : value) :
  (printable v = true <-> exists s, to_string v = Ok s) /\
  (printable v = false <->
   to_string v = Thrown (Error "Cannot convert object to primitive value")) /\
  (forall e, to_string v = Thrown e ->
             e = Error "Cannot convert object to primitive value").
Proof.
  pose proof (converts_all v) as H. unfold converts in H.
  destruct (printable v).
  - destruct H as [s Hs]. rewrite Hs. repeat split; try discriminate; eauto.
  - rewrite H. repeat split; try discriminate; auto.
    + intros [s Hs]. discriminate Hs.
    + intros e He. now injection He as <-.
Qed.

(** *** After the payment *)

Lemma post_root_paid
    (c : collaborators) (body question mode : value) (key : string) :
  invokes_ask_rag body ->
  resolve_arguments (arguments_of body) = Ok (question, mode) ->
  to_string mode = Ok key ->
  requirePayment c (prices_at key) = Ok tt ->
  trace (post_root c body) =
    CallRequirePayment (prices_at key)
      :: trace (on_fault (get body "id")
                  (delegate c (get body "id") question mode)).
Proof.
  intros [Hm Hn] Hr Hk Hp. unfold arguments_of in Hr.
  rewrite (post_root_tools_call_ask_rag c body Hm Hn).
  rewrite (ask_rag_paid c _ _ question mode key Hr Hk Hp).
  apply on_fault_paid.
Qed.

(** X8. A question that has no text form is charged and not answered:
    when the payment is authorised, the log line that interpolates the
    question throws before the [fetch], so the log is the payment request
    and one -32603 envelope, and the backend is not called. *)
Theorem unprintable_question_is_charged_not_forwarded
    (c : collaborators) (body question mode : value) (key : string) :
  invokes_ask_rag body ->
  resolve_arguments (arguments_of body) = Ok (question, mode) ->
  to_string mode = Ok key ->
  requirePayment c (prices_at key) = Ok tt ->
  printable question = false ->
  trace (post_root c body) =
    [CallRequirePayment (prices_at key);
     ResJson (error_envelope (get body "id") (-32603)
                "Cannot convert object to primitive value")].
Proof.
  intros Hinv Hr Hk Hp Hq.
  rewrite (post_root_paid c body question mode key Hinv Hr Hk Hp).
  pose proof (converts_all question) as Hc. unfold converts in Hc.
  rewrite Hq in Hc. unfold delegate. now rewrite Hc.
Qed.

Lemma unprintable_question_is_charged_not_forwarded_witness :
  trace (post_root (paying (backend_answers sample_data))
           (call_ask_rag (JNum 11)
              (JObj [ ("question", JObj [ ("toString", JNum 1) ]) ]))) =
    [CallRequirePayment (PBigNumber (5 # 100));
     ResJson (error_envelope (JNum 11) (-32603)
                "Cannot convert object to primitive value")].
Proof.
  apply (unprintable_question_is_charged_not_forwarded
           (paying (backend_answers sample_data))
           (call_ask_rag (JNum 11)
              (JObj [ ("question", JObj [ ("toString", JNum 1) ]) ]))
           (JObj [ ("toString", JNum 1) ]) (JStr "auto") "auto");
    try reflexivity.
  split; reflexivity.
Defined.

(** X9. A backend that cannot be reached, or whose 2xx body is not JSON,
    costs the caller the payment: after the authorised payment and the one
    [fetch], the rejection of [fetch] or of [response.json()] is answered
    by a -32603 envelope with that rejection's message. *)
Theorem backend_transport_fault_after_payment
    (c : collaborators) (body question mode : value) (key q : string) :
  invokes_ask_rag body ->
  resolve_arguments (arguments_of body) = Ok (question, mode) ->
  to_string mode = Ok key ->
  requirePayment c (prices_at key) = Ok tt ->
  to_string question = Ok q ->
  forall e,
    fetch c RAG_ASK_ENDPOINT (backend_payload question mode) = Thrown e \/
    (exists r,
        fetch c RAG_ASK_ENDPOINT (backend_payload question mode) = Ok r /\
        ok r = true /\ json r = Thrown e) ->
    trace (post_root c body) =
      [CallRequirePayment (prices_at key);
       CallFetch RAG_ASK_ENDPOINT (backend_payload question mode);
       ResJson (error_envelope (get body "id") (-32603) (message e))].
Proof.
  intros Hinv Hr Hk Hp Hq e Hfault.
  rewrite (post_root_paid c body question mode key Hinv Hr Hk Hp).
  unfold delegate, do_fetch. rewrite Hq. simpl.
  destruct Hfault as [Hf | (r & Hf & Hok & Hj)]; rewrite Hf; simpl.
  - reflexivity.
  - rewrite Hok. simpl. rewrite Hj. reflexivity.
Qed.

Lemma backend_transport_fault_after_payment_witness :
  trace (post_root
           (Collaborators (fun _ => Ok tt)
              (fun _ _ => Thrown (Error "connect ECONNREFUSED 127.0.0.1:8000")))
           sample_call) =
    [CallRequirePayment (PBigNumber (1 # 100));
     CallFetch RAG_ASK_ENDPOINT
       (backend_payload (JStr "What is the answer?") (JStr "qa"));
     ResJson (error_envelope (JNum 7) (-32603)
                "connect ECONNREFUSED 127.0.0.1:8000")].
Proof.
  exact (backend_transport_fault_after_payment
           (Collaborators (fun _ => Ok tt)
              (fun _ _ => Thrown (Error "connect ECONNREFUSED 127.0.0.1:8000")))
           sample_call (JStr "What is the answer?") (JStr "qa")
           "qa" "What is the answer?"
           (conj eq_refl eq_refl) eq_refl eq_refl eq_refl eq_refl
           (Error "connect ECONNREFUSED 127.0.0.1:8000")
           (or_introl eq_refl)).
Defined.

(** X10. The reply of the backend is not checked beyond its status.  A
    2xx body that is JSON [null] is answered by a -32603 envelope (the read
    of [data.mode] throws); any other body that has no [mode] and no
    [answer] is answered by a result whose text puts "undefined" in their
    places. *)
Theorem backend_reply_fields_are_not_checked
    (c : collaborators) (body question mode data : value) (key q : string)
    (r : http_response) :
  invokes_ask_rag body ->
  resolve_arguments (arguments_of body) = Ok (question, mode) ->
  to_string mode = Ok key ->
  requirePayment c (prices_at key) = Ok tt ->
  to_string question = Ok q ->
  fetch c RAG_ASK_ENDPOINT (backend_payload question mode) = Ok r ->
  ok r = true ->
  json r = Ok data ->
  (nullish data = true ->
   responses (trace (post_root c body)) =
     [ResJson (error_envelope (get body "id") (-32603)
                 ("Cannot read properties of " ++ type_name data
                    ++ " (reading 'mode')"))]) /\
  (nullish data = false ->
   get data "mode" = JUndefined ->
   get data "answer" = JUndefined ->
   responses (trace (post_root c body)) =
     [ResJson (result_envelope (get body "id")
                 (content_result (format_answer q "undefined" "undefined")))]).
Proof.
  intros Hinv Hr Hk Hp Hq Hf Hok Hj.
  rewrite (post_root_paid c body question mode key Hinv Hr Hk Hp).
  unfold delegate, do_fetch. rewrite Hq. simpl. rewrite Hf. simpl.
  rewrite Hok. simpl. rewrite Hj. simpl. split.
  - intro Hnull. unfold member. rewrite Hnull. reflexivity.
  - intros Hnull Hmode Hanswer.
    rewrite !(member_not_nullish data _ Hnull). simpl.
    rewrite Hmode. simpl. rewrite Hanswer. reflexivity.
Qed.

Lemma backend_reply_fields_are_not_checked_witness :
  responses (trace (post_root (paying (backend_answers (JObj []))) sample_call)) =
    [ResJson (result_envelope (JNum 7)
                (content_result
                   (format_answer "What is the answer?" "undefined" "undefined")))].
Proof.
  apply (proj2 (backend_reply_fields_are_not_checked
                  (paying (backend_answers (JObj []))) sample_call
                  (JStr "What is the answer?") (JStr "qa") (JObj [])
                  "qa" "What is the answer?" (Response 200 (Ok (JObj [])))
                  (conj eq_refl eq_refl) eq_refl eq_refl eq_refl eq_refl
                  eq_refl eq_refl eq_refl));
    reflexivity.
Defined.

(** *** On the wire *)

Lemma gateway_run_envelope (c : collaborators) (body : value) (t : list event) :
  gateway_run c body t ->
  forall env, In (ResJson env) t -> envelope_for (get body "id") env.
Proof.
  intros H env Hin.
  inversion H; subst t; in_cases Hin; injection Hin as <-;
    unfold envelope_for; eauto.
Qed.

Lemma envelope_id_on_the_wire (id env : value) :
  envelope_for id env ->
  (id = JUndefined -> has_member (stringify_view env) "id" = false) /\
  (forall s, id = JStr s -> get (stringify_view env) "id" = JStr s).
Proof.
  intros [[res ->] | (code & msg & ->)]; split.
  - intros ->. destruct res; reflexivity.
  - intros s ->. reflexivity.
  - intros ->. reflexivity.
  - intros s ->. reflexivity.
Qed.

(** X12. What the caller receives as [id]: every reply sent has, once
    serialised, no [id] member at all when the request had none, and the
    request's [id] as it is when that is a string. *)
Theorem id_on_the_wire (c : collaborators) (body env : value) :
  nullish body = false ->
  In (ResJson env) (trace (post_root c body)) ->
  (get body "id" = JUndefined ->
   has_member (stringify_view env) "id" = false) /\
  (forall s, get body "id" = JStr s ->
             get (stringify_view env) "id" = JStr s).
Proof.
  intros Hb Hin. apply envelope_id_on_the_wire.
  exact (gateway_run_envelope c body _ (proj1 (post_root_logs c body Hb)) env Hin).
Qed.

Lemma id_on_the_wire_witness :
  has_member
    (stringify_view
       (result_envelope JUndefined tools_list_result)) "id" = false.
Proof.
  apply (proj1 (id_on_the_wire (paying (backend_answers sample_data))
                  (JObj [ ("jsonrpc", JStr "2.0"); ("method", JStr "tools/list") ])
                  (result_envelope JUndefined tools_list_result)
                  eq_refl (or_introl eq_refl))).
  reflexivity.
Defined.

Lemma resolved_mode_defined (args question mode : value) :
  resolve_arguments args = Ok (question, mode) -> mode <> JUndefined.
Proof.
  unfold resolve_arguments. destruct (destructurable _ _ _); [ | discriminate].
  intro H. injection H as _ <-. destruct (get args "mode"); discriminate.
Qed.

(** X13. An [ask_rag] call without a question is charged and forwarded:
    after the authorised payment the backend is called, and the body it
    is sent has a [mode] member only, the absent question being left out
    by [JSON.stringify]. *)
Theorem missing_question_is_forwarded_without_it
    (c : collaborators) (body mode : value) (key : string) :
  invokes_ask_rag body ->
  resolve_arguments (arguments_of body) = Ok (JUndefined, mode) ->
  to_string mode = Ok key ->
  requirePayment c (prices_at key) = Ok tt ->
  exists rest,
    trace (post_root c body) =
      CallRequirePayment (prices_at key)
        :: CallFetch RAG_ASK_ENDPOINT (backend_payload JUndefined mode) :: rest /\
    stringify_view (backend_payload JUndefined mode) =
      JObj [ ("mode", stringify_view mode) ].
Proof.
  intros Hinv Hr Hk Hp.
  rewrite (post_root_paid c body JUndefined mode key Hinv Hr Hk Hp).
  rewrite on_fault_trace.
  destruct (delegate_fetches c (get body "id") JUndefined mode "undefined" eq_refl)
    as [rest ->].
  eexists. split; [reflexivity | ].
  pose proof (resolved_mode_defined _ _ _ Hr) as Hdef.
  destruct mode; try reflexivity. contradiction.
Qed.

Lemma missing_question_is_forwarded_without_it_witness :
  exists rest,
    trace (post_root (paying (backend_status 422))
             (call_ask_rag (JNum 12) (JObj [ ("mode", JStr "qa") ]))) =
      CallRequirePayment (PBigNumber (1 # 100))
        :: CallFetch RAG_ASK_ENDPOINT (backend_payload JUndefined (JStr "qa"))
        :: rest /\
    stringify_view (backend_payload JUndefined (JStr "qa")) =
      JObj [ ("mode", JStr "qa") ].
Proof.
  exact (missing_question_is_forwarded_without_it
           (paying (backend_status 422))
           (call_ask_rag (JNum 12) (JObj [ ("mode", JStr "qa") ]))
           (JStr "qa") "qa"
           (conj eq_refl eq_refl) eq_refl eq_refl eq_refl).
Defined.

(* ================================================================== *)
(** ** The agent *)

Lemma agent_cases (env : option string) (s : Agent.services) :
  (Agent.missing env = true /\
   Agent.main env s = ([Agent.PrintNoCredential], Agent.Exit 1)) \/
  (exists credential,
      env = Some credential /\ Agent.missing env = false /\
      ((exists e,
           Agent.atxpClient s Agent.mcpServer credential = Thrown e /\
           Agent.main env s =
             ([Agent.Connect Agent.mcpServer credential; Agent.PrintFatal e],
              Agent.Exit 1)) \/
       (exists e,
           Agent.atxpClient s Agent.mcpServer credential = Ok tt /\
           Agent.callTool s Agent.toolName (Agent.getArguments Agent.prompt)
             = Thrown e /\
           Agent.main env s =
             ([Agent.Connect Agent.mcpServer credential;
               Agent.CallTool Agent.toolName (Agent.getArguments Agent.prompt);
               Agent.PrintCallError e], Agent.Exit 1)) \/
       (exists r,
           Agent.atxpClient s Agent.mcpServer credential = Ok tt /\
           Agent.callTool s Agent.toolName (Agent.getArguments Agent.prompt)
             = Ok r /\
           Agent.main env s =
             ([Agent.Connect Agent.mcpServer credential;
               Agent.CallTool Agent.toolName (Agent.getArguments Agent.prompt);
               Agent.PrintResult r], Agent.Returned)))).
Proof.
  destruct env as [credential | ]; [ | left; split; reflexivity].
  destruct (Agent.missing (Some credential)) eqn:Hmiss.
  { left. split; [reflexivity | ]. unfold Agent.main. now rewrite Hmiss. }
  right. exists credential. split; [reflexivity | split; [reflexivity | ]].
  unfold Agent.main. rewrite Hmiss.
  destruct (Agent.atxpClient s Agent.mcpServer credential) as [[] | e].
  2: { left. eauto. }
  right.
  destruct (Agent.callTool s Agent.toolName (Agent.getArguments Agent.prompt))
    as [r | e]; [right | left]; eauto.
Qed.

(** X14. However the services behave, the agent ends normally only after
    printing a result and exits with status 1 in every other run; it
    connects at most once and calls a tool at most once.  A tool call is
    always the second entry of the log, right after the connection to the
    configured server with the credential of the environment, and it is
    always [ask_rag] with the fixed prompt and mode "auto".  Without a
    connection string, unset or empty, the agent exits before connecting. *)
Theorem agent_run_is_one_call_or_exit_1 (env : option string) (s : Agent.services) :
  let t := fst (Agent.main env s) in
  let ending := snd (Agent.main env s) in
  (ending = Agent.Returned \/ ending = Agent.Exit 1) /\
  (ending = Agent.Returned <-> exists r, In (Agent.PrintResult r) t) /\
  (length (filter Agent.is_connect t) <= 1)%nat /\
  (length (filter Agent.is_call t) <= 1)%nat /\
  (forall name args,
      In (Agent.CallTool name args) t ->
      name = "ask_rag" /\
      args = JObj [ ("question", JStr Agent.prompt); ("mode", JStr "auto") ] /\
      exists credential last,
        env = Some credential /\
        t = [Agent.Connect Agent.mcpServer credential;
             Agent.CallTool name args; last]) /\
  (Agent.missing env = true -> t = [Agent.PrintNoCredential]).
Proof.
  intros t ending. subst t ending.
  destruct (agent_cases env s)
    as [[Hmiss ->]
       | (credential & -> & Hmiss
          & [(e & _ & ->) | [(e & _ & _ & ->) | (r & _ & _ & ->)]])];
    cbn [fst snd].
  - (* no credential *)
    split; [auto | split; [split | split; [simpl; lia | split; [simpl; lia | split]]]].
    + discriminate.
    + intros [r Hin]. in_cases Hin.
    + intros name args Hin. in_cases Hin.
    + reflexivity.
  - (* the connection fails *)
    split; [auto | split; [split | split; [simpl; lia | split; [simpl; lia | split]]]].
    + discriminate.
    + intros [r Hin]. in_cases Hin.
    + intros name args Hin. in_cases Hin.
    + intro Hempty. congruence.
  - (* the call fails *)
    split; [auto | split; [split | split; [simpl; lia | split; [simpl; lia | split]]]].
    + discriminate.
    + intros [r Hin]. in_cases Hin.
    + intros name args Hin. in_cases Hin. injection Hin as <- <-.
      split; [reflexivity | split; [reflexivity | ]].
      eexists _, _. split; reflexivity.
    + intro Hempty. congruence.
  - (* the call succeeds *)
    split; [auto | split; [split | split; [simpl; lia | split; [simpl; lia | split]]]].
    + intros _. exists r. simpl. auto.
    + reflexivity.
    + intros name args Hin. in_cases Hin. injection Hin as <- <-.
      split; [reflexivity | split; [reflexivity | ]].
      eexists _, _. split; reflexivity.
    + intro Hempty. congruence.
Qed.

Lemma agent_run_is_one_call_or_exit_1_witness :
  fst (Agent.main (Some "") (Agent.reachable JNull)) = [Agent.PrintNoCredential].
Proof.
  exact (proj2 (proj2 (proj2 (proj2 (proj2
           (agent_run_is_one_call_or_exit_1 (Some "") (Agent.reachable JNull))))))
           eq_refl).
Defined.

(** X15. The agent's call, as the gateway sees it: the arguments the agent
    builds for any question resolve to mode "auto", so the gateway asks for
    0.05 and, once that is authorised, forwards the question with mode
    "auto" to the backend. *)
Theorem agent_call_is_quoted_auto_price
    (c : collaborators) (body : value) (question : string) :
  get body "method" = JStr "tools/call" ->
  get body "params" =
    JObj [ ("name", JStr Agent.toolName);
           ("arguments", Agent.getArguments question) ] ->
  exists rest,
    trace (post_root c body) = CallRequirePayment (PBigNumber (5 # 100)) :: rest /\
    payment_requests rest = [] /\
    (requirePayment c (PBigNumber (5 # 100)) = Ok tt ->
     exists rest',
       rest = CallFetch RAG_ASK_ENDPOINT
                (backend_payload (JStr question) (JStr "auto")) :: rest').
Proof.
  intros Hm Hparams.
  assert (Hn : get (get body "params") "name" = JStr "ask_rag")
    by now rewrite Hparams.
  assert (Hr : resolve_arguments (get (get body "params") "arguments") =
               Ok (JStr question, JStr "auto")) by now rewrite Hparams.
  rewrite (post_root_tools_call_ask_rag c body Hm Hn).
  destruct (requirePayment c (prices_at "auto")) as [[] | e] eqn:Hp.
  - rewrite (ask_rag_paid c _ _ _ _ "auto" Hr eq_refl Hp), on_fault_paid.
    eexists. split; [reflexivity | split; [apply delegate_no_payment | ]].
    intros _. rewrite on_fault_trace.
    destruct (delegate_fetches c (get body "id") (JStr question) (JStr "auto")
                question eq_refl) as [rest' ->].
    eexists. reflexivity.
  - rewrite (ask_rag_declined c _ _ _ _ "auto" e Hr eq_refl Hp).
    eexists. split; [reflexivity | split; [reflexivity | ]].
    intro Hok. change (prices_at "auto") with (PBigNumber (5 # 100)) in Hp.
    congruence.
Qed.

Lemma agent_call_is_quoted_auto_price_witness :
  exists rest,
    trace (post_root (paying (backend_answers sample_data))
             (call_ask_rag (JNum 1) (Agent.getArguments Agent.prompt))) =
      CallRequirePayment (PBigNumber (5 # 100)) :: rest /\
    payment_requests rest = [] /\
    (requirePayment (paying (backend_answers sample_data)) (PBigNumber (5 # 100))
       = Ok tt ->
     exists rest',
       rest = CallFetch RAG_ASK_ENDPOINT
                (backend_payload (JStr Agent.prompt) (JStr "auto")) :: rest').
Proof.
  exact (agent_call_is_quoted_auto_price
           (paying (backend_answers sample_data))
           (call_ask_rag (JNum 1) (Agent.getArguments Agent.prompt))
           Agent.prompt eq_refl eq_refl).
Defined.

(* ================================================================== *)
(** ** What an envelope tells the caller *)

(** X16. A not-found error is free: when the response is an envelope
    with code -32601, the log holds nothing else, so no payment was
    requested and the backend was not called. *)
Theorem not_found_error_is_free
    (c : collaborators) (body id : value) (msg : string) :
  nullish body = false ->
  In (ResJson (error_envelope id (-32601) msg)) (trace (post_root c body)) ->
  trace (post_root c body) = [ResJson (error_envelope id (-32601) msg)] /\
  payment_requests (trace (post_root c body)) = [] /\
  backend_calls (trace (post_root c body)) = [].
Proof.
  intros Hb Hin.
  pose proof (proj1 (post_root_logs c body Hb)) as Hlog.
  inversion Hlog as [Hm Ht | res Hm Hres Ht | code msg' Hm Hc Ht
                     | price reason Hi Hp Ht | price msg' Hi Hp Ht
                     | price payload msg' Hi Hp Ht | price payload text Hi Hp Ht];
    rewrite <- Ht in *; in_cases Hin; injection Hin; intros; subst;
    try (destruct Hc as [-> | ->];
         [ | match goal with
             | H : number_to_string _ = number_to_string _ |- _ =>
                 vm_compute in H; discriminate H
             end ]);
    repeat split.
Qed.

Lemma not_found_error_is_free_witness :
  trace (post_root (paying (backend_answers sample_data)) unknown_method_call) =
    [ResJson (error_envelope (JNum 4) (-32601) "Unknown method: resources/list")] /\
  payment_requests
    (trace (post_root (paying (backend_answers sample_data)) unknown_method_call)) = [] /\
  backend_calls
    (trace (post_root (paying (backend_answers sample_data)) unknown_method_call)) = [].
Proof.
  apply (not_found_error_is_free (paying (backend_answers sample_data))
           unknown_method_call (JNum 4) "Unknown method: resources/list").
  - reflexivity.
  - simpl. left. reflexivity.
Defined.

(** X17. No answer without payment: on an [ask_rag] call a result
    envelope is sent only at the end of a log that starts with a payment
    request the collaborator authorised, followed by the one backend
    call. *)
Theorem answer_implies_authorised_payment
    (c : collaborators) (body id res : value) :
  invokes_ask_rag body ->
  In (ResJson (result_envelope id res)) (trace (post_root c body)) ->
  exists price payload,
    trace (post_root c body) =
      [CallRequirePayment price;
       CallFetch RAG_ASK_ENDPOINT payload;
       ResJson (result_envelope id res)] /\
    requirePayment c price = Ok tt.
Proof.
  intros [Hm Hn] Hin. revert Hin.
  rewrite (post_root_tools_call_ask_rag c body Hm Hn), on_fault_trace.
  destruct (ask_rag_cases c (get body "id") (get (get body "params") "arguments"))
    as [e Hrun | question mode key e Hr Hk Hp Hrun | question mode key Hr Hk Hp Hrun];
    rewrite Hrun; simpl.
  - intro Hin. in_cases Hin.
  - intro Hin. in_cases Hin.
  - pose proof (delegate_shape c (get body "id") question mode) as Hshape.
    inversion Hshape as [e Hthrown Hd | e Hd | text Hd]; simpl;
      intro Hin; in_cases Hin.
    injection Hin as <- <-. eauto.
Qed.

Lemma answer_implies_authorised_payment_witness :
  exists price payload,
    trace (post_root (paying (backend_answers sample_data)) sample_call) =
      [CallRequirePayment price;
       CallFetch RAG_ASK_ENDPOINT payload;
       ResJson (result_envelope (JNum 7)
                  (content_result (format_answer "What is the answer?" "qa" "42")))] /\
    requirePayment (paying (backend_answers sample_data)) price = Ok tt.
Proof.
  apply (answer_implies_authorised_payment
           (paying (backend_answers sample_data)) sample_call).
  - split; reflexivity.
  - simpl. right. right. left. reflexivity.
Defined.

Lemma to_string_fails_only_on_shadowed_toString_witness :
  to_string (JArr [ JStr "a"; JObj [ ("toString", JNull) ] ]) =
    Thrown (Error "Cannot convert object to primitive value").
Proof.
  exact (proj1 (proj1 (proj2 (to_string_fails_only_on_shadowed_toString
                                (JArr [ JStr "a"; JObj [ ("toString", JNull) ] ]))))
           eq_refl).
Defined.
